(** * XFusion inference driver: temporal windowing, codec dispatch, report

    A shallow embedding of [inference/infer.py]:
    - the index arithmetic of the per-index loop body (low-resolution
      neighbours, high-resolution block, boundary mask),
    - the window assembly itself, with Python's exceptions as an error type,
    - the dimensionality dispatch of [tensor2img], with the failures of
      the two library calls it makes,
    - the PSNR expression over extended reals,
    - the accumulation of the per-index lists and the final [result_dict],
    - the loop over the worker's indices and the choice of the working
      directory,
    and of [get_config_name] of [xfusion/config.py].

    Python [int] is [Z]; [//] is [Z.div] (both round towards minus
    infinity, for either sign of a non-zero divisor); [max]/[min] are
    [Z.max]/[Z.min]. *)

From Stdlib Require Import ZArith List Ascii String Bool Lia.
From Stdlib Require Import Reals Lra.
From Stdlib Require SpecFloat.
Import ListNotations.
Local Open Scope string_scope.
Local Open Scope list_scope.
Local Open Scope Z_scope.

(** ** Exceptions and the error monad *)

Inductive exn : Type :=
| KeyError (key : string)
| IndexError
| ZeroDivisionError
| TypeError
| ValueError
| RuntimeError
| CvError
| NameError (name : string).

Inductive result (A : Type) : Type :=
| Ok (a : A)
| Raise (e : exn).
Arguments Ok {A} a.
Arguments Raise {A} e.

Definition bind {A B : Type} (m : result A) (k : A -> result B) : result B :=
  match m with
  | Ok a => k a
  | Raise e => Raise e
  end.

Notation "x <- m ;; k" := (bind m (fun x => k))
  (at level 61, m at next level, right associativity).

Definition from_option {A : Type} (e : exn) (o : option A) : result A :=
  match o with
  | Some a => Ok a
  | None => Raise e
  end.

(** ** Index arithmetic of the loop body (infer.py, lines 204-220) *)

(** [max(0, int(idx - lo_frame_sep))] *)
Definition lo_prev (idx lo_frame_sep : Z) : Z :=
  Z.max 0 (idx - lo_frame_sep).

(** [min(len(dataset) - 1, int(idx + lo_frame_sep))] *)
Definition lo_next (len idx lo_frame_sep : Z) : Z :=
  Z.min (len - 1) (idx + lo_frame_sep).

(** [max(0, int(idx // (hi_frame_sep*2) * hi_frame_sep * 2))]; Python parses
    the product as [((idx // (hi*2)) * hi) * 2]. *)
Definition hi_start (idx hi_frame_sep : Z) : Z :=
  Z.max 0 (idx / (hi_frame_sep * 2) * hi_frame_sep * 2).

(** [min(gt_size[2], int((idx // (hi_frame_sep*2) + 1) * hi_frame_sep * 2))] *)
Definition hi_end (gt_size2 idx hi_frame_sep : Z) : Z :=
  Z.min gt_size2 ((idx / (hi_frame_sep * 2) + 1) * hi_frame_sep * 2).

(** The value appended to [masks] (lines 217-220). *)
Definition mask_flag (len idx lo_frame_sep hi_frame_sep : Z) : Z :=
  if (idx =? hi_start idx hi_frame_sep) || (idx =? lo_next len idx lo_frame_sep)
  then 1 else 0.

(** The three dataset indices of the low-resolution triple, in the order of
    the [torch.cat] at lines 204-206. *)
Definition lq_indices (len idx lo_frame_sep : Z) : Z * Z * Z :=
  (lo_prev idx lo_frame_sep, idx, lo_next len idx lo_frame_sep).

(** ** The specification's vocabulary *)

Module Spec.

Definition clamp (x lo hi : Z) : Z := Z.max lo (Z.min x hi).

Definition blkStart (idx hiSep : Z) : Z :=
  idx / (2 * hiSep) * (2 * hiSep).

Definition blkEnd (maxValidHiIndex idx hiSep : Z) : Z :=
  Z.min maxValidHiIndex (blkStart idx hiSep + 2 * hiSep).

Definition boundary (N idx loSep hiSep : Z) : Prop :=
  idx = blkStart idx hiSep \/ idx = clamp (idx + loSep) 0 (N - 1).

End Spec.

(** ** Frame Source and window assembly (infer.py, lines 192-220) *)

(** The model's [center_frame_idx] (line 171). *)
Definition center_frame_idx : nat := 1.

Section Window.

(** One image plane stack of shape (C, H, W); its contents are opaque. *)
Variable frame : Type.

(** A high-resolution reference, by the length of its [size()]. *)
Inductive tensor : Type :=
| T3 (f : frame)            (* 3 dimensions: one frame *)
| T4 (fs : list frame)      (* 4 dimensions: a stack of frames *)
| TOther                    (* fewer than 3 dimensions *)
| TMany (size0 : nat).      (* 5 or more dimensions, the first of [size0] *)

(** The record [dataset[i]] returns: a dict with keys [lq], [hq],
    [lq_path] and at most one of [gt] / [image] required by the loop. *)
Record sample : Type := {
  lq : list frame;
  gt : option tensor;
  image : option tensor;
  hq : frame;
  lq_path : string
}.

(** Modelled from the spec: the Frame Source class
    [dataset.xray_dataset.XrayVideoTestDatasetSTF] -- indexable by an
    integer in [0 .. N-1], every lookup returning a fresh sample; any
    other index is a fatal lookup error. *)
Definition getitem (dataset : list sample) (i : Z) : result sample :=
  if (0 <=? i) && (i <? Z.of_nat (List.length dataset))
  then from_option IndexError (nth_error dataset (Z.to_nat i))
  else Raise IndexError.

(** ['gt' in list(s.keys())] *)
Definition has_gt (s : sample) : bool :=
  match gt s with Some _ => true | None => false end.

(** [s[key]] for the two reference keys. *)
Definition get_ref (s : sample) (key : string) : result tensor :=
  if String.eqb key "gt" then from_option (KeyError "gt") (gt s)
  else if String.eqb key "image" then from_option (KeyError "image") (image s)
  else Raise (KeyError key).

(** [s['lq'][center_frame_idx,:,:,:]] *)
Definition center_slice (s : sample) : result frame :=
  from_option IndexError (nth_error (lq s) center_frame_idx).

(** [t[0,:,:,:].unsqueeze(0)] as an operand of the [torch.cat] of line
    213, whose first operand has 3+1 dimensions.  Four indices need at
    least four dimensions and a non-empty first one; on five or more
    dimensions the slice keeps more than three and [torch.cat] rejects the
    operand. *)
Definition leading_slice (t : tensor) : result frame :=
  match t with
  | T4 fs => from_option IndexError (nth_error fs 0)
  | TMany O => Raise IndexError
  | TMany (S _) => Raise RuntimeError
  | T3 _ => Raise IndexError
  | TOther => Raise IndexError
  end.

(** [t.unsqueeze(0)] as an operand of the [torch.cat] of line 215, whose
    first operand has 3+1 dimensions. *)
Definition whole_frame (t : tensor) : result frame :=
  match t with
  | T3 f => Ok f
  | _ => Raise RuntimeError
  end.

Definition is_4d (t : tensor) : bool :=
  match t with T4 _ => true | _ => false end.

Definition is_3d (t : tensor) : bool :=
  match t with T3 _ => true | _ => false end.

(** [val_data] as handed to the model. *)
Record window : Type := {
  w_lq : list frame;          (* val_data['lq'], three slices *)
  w_ref_key : string;         (* 'gt' or 'image' *)
  w_ref : tensor;             (* val_data['gt'] / val_data['image'] *)
  w_hq : list frame           (* val_data['hq'] *)
}.

(** *** Computations that log every [dataset[...]] lookup *)

Definition M (A : Type) : Type := list Z -> list Z * result A.

Definition ret {A : Type} (a : A) : M A := fun log => (log, Ok a).

Definition lift {A : Type} (r : result A) : M A := fun log => (log, r).

Definition mbind {A B : Type} (m : M A) (k : A -> M B) : M B :=
  fun log =>
    match m log with
    | (log', Ok a) => k a log'
    | (log', Raise e) => (log', Raise e)
    end.

(** [dataset[i]], with the index appended to the log. *)
Definition lookup (dataset : list sample) (i : Z) : M sample :=
  fun log => (log ++ [i], getitem dataset i).

Notation "x <~ m ;; k" := (mbind m (fun x => k))
  (at level 61, m at next level, right associativity).

(** [dataset[i]['lq'][center_frame_idx,:,:,:]] *)
Definition slot (dataset : list sample) (i : Z) : M frame :=
  s <~ lookup dataset i ;; lift (center_slice s).

(** Lines 204-206: the low-resolution triple around [idx];
    [val_data_] is [dataset[idx]] as fetched at line 192. *)
Definition assemble_lq (dataset : list sample) (idx lo_frame_sep : Z)
    (val_data_ : sample) : M (list frame) :=
  let len := Z.of_nat (List.length dataset) in
  prev <~ slot dataset (lo_prev idx lo_frame_sep) ;;
  cur <~ lift (center_slice val_data_) ;;
  next <~ slot dataset (lo_next len idx lo_frame_sep) ;;
  ret [prev; cur; next].

(** Lines 208-215: the high-resolution reference pair. *)
Definition assemble_hq (dataset : list sample)
    (idx hi_frame_sep gt_size2 : Z) (val_data_ : sample) : M (list frame) :=
  _ <~ lift (if hi_frame_sep * 2 =? 0 then Raise ZeroDivisionError
             else Ok tt) ;;
  (* 208-211 *)
  s208 <~ lookup dataset (hi_start idx hi_frame_sep) ;;
  let gt_key := if has_gt s208 then "gt" else "image" in
  (* 212 *)
  s212 <~ lookup dataset (hi_start idx hi_frame_sep) ;;
  r212 <~ lift (get_ref s212 gt_key) ;;
  if is_4d r212 then
    (* 213 *)
    s <~ lookup dataset (hi_start idx hi_frame_sep) ;;
    r <~ lift (get_ref s gt_key) ;;
    a <~ lift (leading_slice r) ;;
    e <~ lookup dataset (hi_end gt_size2 idx hi_frame_sep) ;;
    re <~ lift (get_ref e gt_key) ;;
    b <~ lift (leading_slice re) ;;
    ret [a; b]
  else
    (* 214 *)
    s214 <~ lookup dataset (hi_start idx hi_frame_sep) ;;
    r214 <~ lift (get_ref s214 gt_key) ;;
    if is_3d r214 then
      (* 215 *)
      s <~ lookup dataset (hi_start idx hi_frame_sep) ;;
      r <~ lift (get_ref s gt_key) ;;
      a <~ lift (whole_frame r) ;;
      e <~ lookup dataset (hi_end gt_size2 idx hi_frame_sep) ;;
      re <~ lift (get_ref e gt_key) ;;
      b <~ lift (whole_frame re) ;;
      ret [a; b]
    else
      (* val_data['hq'] keeps the value of line 200/202 *)
      ret [hq val_data_].

(** Lines 192-220 for one target index: [val_data] and the value
    appended to [masks].  [.cuda()], [.cpu()] and the batch-axis
    [unsqueeze] calls do not change which frames are selected and are
    not modelled. *)
Definition build_window (dataset : list sample)
    (idx lo_frame_sep hi_frame_sep gt_size2 : Z) : M (window * Z) :=
  let len := Z.of_nat (List.length dataset) in
  (* 192-202 *)
  val_data_ <~ lookup dataset idx ;;
  let key := if has_gt val_data_ then "gt" else "image" in
  ref <~ lift (get_ref val_data_ key) ;;
  (* 204-206 *)
  lq3 <~ assemble_lq dataset idx lo_frame_sep val_data_ ;;
  (* 208-215 *)
  hq2 <~ assemble_hq dataset idx hi_frame_sep gt_size2 val_data_ ;;
  (* 217-220 *)
  ret ({| w_lq := lq3; w_ref_key := key; w_ref := ref; w_hq := hq2 |},
       mask_flag len idx lo_frame_sep hi_frame_sep).

(** Every index a computation adds to the log satisfies [P]. *)
Definition logs_in {A : Type} (P : Z -> Prop) (m : M A) : Prop :=
  forall log, Forall P log -> Forall P (fst (m log)).

(** The indices looked up, and the outcome, from an empty log. *)
Definition lookups_of {A : Type} (m : M A) : list Z := fst (m []).
Definition outcome {A : Type} (m : M A) : result A := snd (m []).

End Window.

Arguments T3 {frame} f.
Arguments T4 {frame} fs.
Arguments TOther {frame}.
Arguments TMany {frame} size0.
Arguments Build_sample {frame}.
Arguments Build_window {frame}.
Arguments lq {frame} s.
Arguments gt {frame} s.
Arguments image {frame} s.
Arguments hq {frame} s.
Arguments w_lq {frame} w.
Arguments w_hq {frame} w.
Arguments w_ref {frame} w.
Arguments w_ref_key {frame} w.
Arguments getitem {frame}.
Arguments has_gt {frame}.
Arguments get_ref {frame}.
Arguments center_slice {frame}.
Arguments leading_slice {frame}.
Arguments whole_frame {frame}.
Arguments build_window {frame}.
Arguments slot {frame}.
Arguments assemble_lq {frame}.
Arguments assemble_hq {frame}.
Arguments lookup {frame}.
Arguments lookups_of {A}.
Arguments logs_in {A}.
Arguments outcome {A}.

(** ** Image Codec Adapter: the dispatch of [tensor2img] (lines 21-77) *)

Module Codec.

(** What the caller may pass: a tensor (only its shape matters for the
    dispatch), a Python list of tensors and other objects, or anything
    else. *)
Inductive item : Type :=
| ITensor (shape : list Z)
| IOther.

Inductive pyobj : Type :=
| Tensor (shape : list Z)
| PyList (items : list item)
| Other.

(** [torch.is_tensor(t)] *)
Definition is_tensor (i : item) : bool :=
  match i with ITensor _ => true | IOther => false end.

(** [t.squeeze(0)]: drops the first dimension when its size is 1. *)
Definition squeeze0 (shape : list Z) : list Z :=
  match shape with
  | 1 :: rest => rest
  | _ => shape
  end.

(** [t.dim()] *)
Definition dim (shape : list Z) : Z := Z.of_nat (List.length shape).

(** [float(n)] of a Python int: the nearest binary64 value. *)
Definition float_of_int (n : Z) : SpecFloat.spec_float :=
  SpecFloat.binary_normalize 53 1024 n 0 false.

(** [math.sqrt(x)]: the correctly rounded binary64 square root. *)
Definition math_sqrt (x : SpecFloat.spec_float) : SpecFloat.spec_float :=
  SpecFloat.SFsqrt 53 1024 x.

(** [int(x)] of a finite float: truncation towards zero. *)
Definition int_of_float (x : SpecFloat.spec_float) : Z :=
  match x with
  | SpecFloat.S754_finite s m e =>
      let v := if 0 <=? e then Zpos m * 2 ^ e else Zpos m / 2 ^ (- e) in
      if s then - v else v
  | _ => 0
  end.

(** [int(math.sqrt(b))] for a tensor size [b >= 0]. *)
Definition int_sqrt (b : Z) : Z :=
  int_of_float (math_sqrt (float_of_int b)).

(** What [torchvision.utils.make_grid(t, nrow=nrow)] hands to the later
    lines, for [t] of shape (b, c, h, w) and the default padding 2: the
    number of channels of the grid and whether the grid has no pixel.
    Single-channel images are tripled; a batch of one image is returned
    as that image; otherwise [ceil(float(b) / min(nrow, b))] rows of
    padded cells are laid out, which divides by zero when
    [min(nrow, b)] is 0. *)
Record grid : Type := { g_channels : Z; g_empty : bool }.

Definition make_grid (b c h w nrow : Z) : result grid :=
  let channels := if c =? 1 then 3 else c in
  if b =? 1 then
    Ok {| g_channels := channels; g_empty := (h =? 0) || (w =? 0) |}
  else if Z.min nrow b =? 0 then Raise ZeroDivisionError
  else Ok {| g_channels := channels; g_empty := false |}.

(** [cv2.cvtColor(img, cv2.COLOR_RGB2BGR)] on a float32 image: OpenCV
    rejects an image without pixels and a channel count other than 3 or
    4. *)
Definition cvtColor (empty : bool) (channels : Z) : result unit :=
  if empty then Raise CvError
  else if (channels =? 3) || (channels =? 4) then Ok tt
  else Raise CvError.

(** The array one tensor is turned into, by the branch that built it and
    the arguments of that branch. *)
Inductive img_np : Type :=
| Grid (t : list Z) (nrow : Z) (bgr : bool)
    (* make_grid(t, nrow=nrow).transpose(1, 2, 0), cvtColor if bgr *)
| Hwc (h w c : Z) (bgr : bool)
    (* t.transpose(1, 2, 0) of shape (h, w, c), cvtColor if bgr *)
| Gray (h w : Z)
    (* np.squeeze(t.transpose(1, 2, 0), axis=2) of shape (h, w) *)
| Plain (h w : Z).
    (* t.numpy() of shape (h, w) *)


(** Lines 52-69: the dispatch on [n_dim], for the tensor as it is after
    line 49. *)
Definition dispatch (rgb2bgr : bool) (_tensor : list Z) : result img_np :=
  let n_dim := dim _tensor in
  if n_dim =? 4 then
    match _tensor with
    | [b; c; h; w] =>
        let nrow := int_sqrt b in
        g <- make_grid b c h w nrow ;;
        _ <- (if rgb2bgr then cvtColor (g_empty g) (g_channels g)
              else Ok tt) ;;
        Ok (Grid _tensor nrow rgb2bgr)
    | _ => Raise TypeError
    end
  else if n_dim =? 3 then
    match _tensor with
    | [c; h; w] =>
        if c =? 1 then Ok (Gray h w)
        else
          _ <- (if rgb2bgr then cvtColor ((h =? 0) || (w =? 0)) c
                else Ok tt) ;;
          Ok (Hwc h w c rgb2bgr)
    | _ => Raise TypeError
    end
  else if n_dim =? 2 then
    match _tensor with
    | [h; w] => Ok (Plain h w)
    | _ => Raise TypeError
    end
  else Raise TypeError.

(** Lines 49-69 for one tensor of the given shape. *)
Definition convert_one (rgb2bgr : bool) (shape : list Z) : result img_np :=
  dispatch rgb2bgr (squeeze0 shape).

(** The loop of lines 48-74; the first failing tensor ends it. *)
Fixpoint convert_all (rgb2bgr : bool) (tensors : list (list Z))
  : result (list img_np) :=
  match tensors with
  | [] => Ok []
  | shape :: rest =>
      img <- convert_one rgb2bgr shape ;;
      imgs <- convert_all rgb2bgr rest ;;
      Ok (img :: imgs)
  end.

(** The value returned: [result[0]] when there is one array, else the
    list. *)
Inductive output : Type :=
| One (img : img_np)
| Many (imgs : list img_np).

(** Supported input type (line 42): a tensor or a list of tensors. *)
Definition supported_type (o : pyobj) : bool :=
  match o with
  | Tensor _ => true
  | PyList items => forallb is_tensor items
  | Other => false
  end.

(** The tensors an input holds, in order (lines 45-46). *)
Definition shapes_of (o : pyobj) : list (list Z) :=
  match o with
  | Tensor shape => [shape]
  | PyList items =>
      flat_map (fun i => match i with ITensor s => [s] | IOther => [] end)
               items
  | Other => []
  end.

(** [tensor2img(tensor, rgb2bgr)]; the final [astype] (lines 70-73) does
    not take part in the dispatch and is left out. *)
Definition tensor2img (tensor : pyobj) (rgb2bgr : bool) : result output :=
  if negb (supported_type tensor) then Raise TypeError
  else
    imgs <- convert_all rgb2bgr (shapes_of tensor) ;;
    match imgs with
    | [img] => Ok (One img)
    | _ => Ok (Many imgs)
    end.

Definition dim_ok (n : Z) : bool := (n =? 2) || (n =? 3) || (n =? 4).

End Codec.

Module CodecSpec.


End CodecSpec.

(** ** Metric & Artifact Aggregator: the report (lines 187, 217-220, 247-264) *)

Section Report.

(** The type of a metric or attention value. *)
Variable num : Type.

(** What one pass of the loop body appends. *)
Record row : Type := {
  r_mask : Z;
  r_psnr : num;
  r_aad : num;
  r_ssim : num;
  r_att : list num            (* the entries of corr, in order *)
}.

(** A value stored in [result_dict]: one of the module-level lists by
    reference, or a column sliced out of that pass's [att_all]. *)
Inductive colref : Type :=
| RefPsnrs
| RefAads
| RefSsims
| RefMasks
| AttColumn (values : list num).

(** The five lists of line 187 and the binding of [result_dict]
    ([None]: the name is not bound yet). *)
Record accum : Type := {
  psnrs : list num;
  aads : list num;
  ssims : list num;
  atts : list (list num);
  masks : list Z;
  result_dict : option (list (string * colref))
}.

Definition accum0 : accum :=
  {| psnrs := []; aads := []; ssims := []; atts := []; masks := [];
     result_dict := None |}.

(** [np.vstack(atts)]: the rows stacked, all of one width; the width is
    [att_all.shape[1]]. *)
Definition vstack (rows : list (list num)) : result (Z * list (list num)) :=
  match rows with
  | [] => Raise ValueError
  | r :: rest =>
      if forallb (fun r' => Nat.eqb (List.length r') (List.length r)) rest
      then Ok (Z.of_nat (List.length r), rows)
      else Raise ValueError
  end.

(** [att_all[:, k]] *)
Definition column (k : nat) (att_all : list (list num)) : list num :=
  flat_map (fun r => match nth_error r k with
                     | Some x => [x]
                     | None => []
                     end) att_all.

(** Lines 255-258: the binding of [result_dict] after a pass, given
    [att_all.shape[1]]; with another width the name keeps its binding. *)
Definition make_dict (width : Z) (att_all : list (list num))
    (old : option (list (string * colref))) : option (list (string * colref)) :=
  if width =? 4 then
    Some [("psnr", RefPsnrs); ("aad", RefAads); ("ssim", RefSsims);
          ("t-1 lo", AttColumn (column 0 att_all));
          ("t lo", AttColumn (column 1 att_all));
          ("t+1 lo", AttColumn (column 2 att_all));
          ("t hi", AttColumn (column 3 att_all))]
  else if width =? 5 then
    Some [("psnr", RefPsnrs); ("aad", RefAads); ("ssim", RefSsims);
          ("t-1 lo", AttColumn (column 0 att_all));
          ("t lo", AttColumn (column 1 att_all));
          ("t+1 lo", AttColumn (column 2 att_all));
          ("t-1 hi", AttColumn (column 3 att_all));
          ("t+1 hi", AttColumn (column 4 att_all))]
  else old.

(** Line 250: [corr.detach().cpu().squeeze().numpy()[-1]].  [squeeze]
    leaves an array without axis when [corr] has one entry and an empty
    axis when it has none; the index [-1] fails on both. *)
Definition last_entry (att : list num) : result num :=
  match att with
  | [] => Raise IndexError
  | [_] => Raise IndexError
  | x :: rest => Ok (last rest x)
  end.

(** One pass of the loop body, as far as the lists are concerned
    (lines 218-220, 247-258). *)
Definition step (a : accum) (r : row) : result accum :=
  let masks' := masks a ++ [r_mask r] in
  let psnrs' := psnrs a ++ [r_psnr r] in
  let aads' := aads a ++ [r_aad r] in
  let ssims' := ssims a ++ [r_ssim r] in
  _ <- last_entry (r_att r) ;;
  let atts' := atts a ++ [r_att r] in
  v <- vstack atts' ;;
  let '(width, att_all) := v in
  Ok {| psnrs := psnrs'; aads := aads'; ssims := ssims'; atts := atts';
        masks := masks'; result_dict := make_dict width att_all (result_dict a) |}.

Fixpoint loop (a : accum) (rows : list row) : result accum :=
  match rows with
  | [] => Ok a
  | r :: rest => a' <- step a r ;; loop a' rest
  end.

(** A column of the data frame. *)
Inductive series : Type :=
| Floats (values : list num)
| Ints (values : list Z).

Definition series_length (s : series) : nat :=
  match s with
  | Floats v => List.length v
  | Ints v => List.length v
  end.

(** The list a stored value denotes once the loop is over. *)
Definition deref (a : accum) (c : colref) : series :=
  match c with
  | RefPsnrs => Floats (psnrs a)
  | RefAads => Floats (aads a)
  | RefSsims => Floats (ssims a)
  | RefMasks => Ints (masks a)
  | AttColumn v => Floats v
  end.

(** Lines 261-264: the mask column, then the data frame. *)
Definition finish (a : accum) : result (list (string * series)) :=
  d <- match masks a with
       | [] => Ok (result_dict a)
       | _ :: _ =>
           match result_dict a with
           | None => Raise (NameError "result_dict")
           | Some d => Ok (Some (d ++ [("mask", RefMasks)]))
           end
       end ;;
  match d with
  | None => Raise (NameError "result_dict")
  | Some d => Ok (map (fun kv => (fst kv, deref a (snd kv))) d)
  end.

Definition report (rows : list row) : result (list (string * series)) :=
  a <- loop accum0 rows ;; finish a.

(** Every row's attention vector has width [w]. *)
Definition all_width (w : nat) (rows : list row) : Prop :=
  Forall (fun r => List.length (r_att r) = w) rows.

End Report.

Arguments Build_row {num}.
Arguments r_mask {num} r.
Arguments r_psnr {num} r.
Arguments r_aad {num} r.
Arguments r_ssim {num} r.
Arguments r_att {num} r.
Arguments Floats {num} values.
Arguments Ints {num} values.
Arguments column {num}.
Arguments report {num}.
Arguments loop {num}.
Arguments step {num}.
Arguments finish {num}.
Arguments vstack {num}.
Arguments last_entry {num}.
Arguments make_dict {num}.
Arguments accum0 {num}.
Arguments psnrs {num} a.
Arguments aads {num} a.
Arguments ssims {num} a.
Arguments atts {num} a.
Arguments masks {num} a.
Arguments result_dict {num} a.
Arguments all_width {num}.
Arguments series_length {num}.

(** ** PSNR (lines 239-241) over extended reals *)

Module Metric.

Local Open Scope R_scope.

(** A numpy [float64] with finite values idealised as real numbers:
    finite arithmetic is exact, and the special values follow IEEE 754
    as numpy applies it (a division by zero or a logarithm of zero yields
    an infinity with a warning, never an exception).  Rounding, overflow
    and underflow of finite values are not represented; the properties
    below are stated on the values where binary64 agrees with them. *)
Inductive float : Type :=
| Fin (r : R)
| PInf
| NInf
| NaN.

(** [a / b] *)
Definition fdiv (a b : float) : float :=
  match a, b with
  | Fin x, Fin y =>
      if Req_EM_T y 0 then
        if Rlt_dec 0 x then PInf
        else if Rlt_dec x 0 then NInf
        else NaN
      else Fin (x / y)
  | Fin _, PInf => Fin 0
  | Fin _, NInf => Fin 0
  | PInf, Fin y => if Rlt_dec y 0 then NInf else PInf
  | NInf, Fin y => if Rlt_dec y 0 then PInf else NInf
  | _, _ => NaN
  end.

(** [a * b] *)
Definition fmul (a b : float) : float :=
  let scale (x : R) (inf : float) : float :=
    if Rlt_dec 0 x then inf
    else if Rlt_dec x 0 then
      match inf with PInf => NInf | NInf => PInf | o => o end
    else NaN in
  match a, b with
  | Fin x, Fin y => Fin (x * y)
  | Fin x, PInf => scale x PInf
  | Fin x, NInf => scale x NInf
  | PInf, Fin y => scale y PInf
  | NInf, Fin y => scale y NInf
  | PInf, PInf => PInf
  | NInf, NInf => PInf
  | PInf, NInf => NInf
  | NInf, PInf => NInf
  | _, _ => NaN
  end.

(** [np.log10(a)] *)
Definition flog10 (a : float) : float :=
  match a with
  | Fin x =>
      if Rlt_dec 0 x then Fin (ln x / ln 10)
      else if Req_EM_T x 0 then NInf
      else NaN
  | PInf => PInf
  | _ => NaN
  end.

(** [np.mean(diff ** 2)] over the pixels of [diff]. *)
Definition mean_sq (diff : list R) : float :=
  match diff with
  | [] => NaN
  | _ :: _ =>
      Fin (fold_right (fun d acc => d * d + acc) 0 diff
           / INR (List.length diff))
  end.

(** [psnr = 10. * np.log10(255. * 255. / mse)] *)
Definition psnr (mse : float) : float :=
  fmul (Fin 10) (flog10 (fdiv (fmul (Fin 255) (Fin 255)) mse)).


End Metric.

(** ** A ten-frame sequence used to run the definitions *)

Module Demo.

(** Sample [i]: a three-frame stack and a 3-dimensional [gt]. *)
Definition sample_at (i : nat) : sample nat :=
  {| lq := [10 * i; 10 * i + 1; 10 * i + 2]%nat;
     gt := Some (T3 (1000 + i)%nat);
     image := None;
     hq := (2000 + i)%nat;
     lq_path := "" |}.

Definition dataset : list (sample nat) := map sample_at (seq 0 10).

(** A sample with neither reference key. *)
Definition bare : sample nat :=
  {| lq := [0; 1; 2]%nat; gt := None; image := None; hq := 0%nat;
     lq_path := "" |}.

End Demo.

(** ** The loop over target indices (lines 186-264) *)

(** Number of elements of [range(lo, hi, step)] for [step > 0]. *)
Definition range_len (lo hi step : Z) : Z :=
  if lo <? hi then (hi - lo - 1) / step + 1 else 0.

(** [range(start, stop, step)] as the list of its elements. *)
Definition py_range (start stop step : Z) : result (list Z) :=
  if step =? 0 then Raise ValueError
  else if 0 <? step then
    Ok (map (fun k => start + Z.of_nat k * step)
            (seq 0 (Z.to_nat (range_len start stop step))))
  else
    Ok (map (fun k => start + Z.of_nat k * step)
            (seq 0 (Z.to_nat (range_len stop start (- step))))).

Section Run.

Variable frame : Type.
Variable num : Type.

(** Lines 222-251: the network on the assembled window and the three
    metrics of its output against [val_data]'s reference; library code,
    taken as a function of the window. *)
Variable evaluate : window frame -> result (num * num * num * list num).

(** One pass of the loop body for [idx]: what it appends. *)
Definition pass (dataset : list (sample frame))
    (lo_frame_sep hi_frame_sep gt_size2 idx : Z) : result (row num) :=
  wm <- outcome (build_window dataset idx lo_frame_sep hi_frame_sep gt_size2) ;;
  v <- evaluate (fst wm) ;;
  let '(psnr, aad, ssim, att) := v in
  Ok {| r_mask := snd wm; r_psnr := psnr; r_aad := aad; r_ssim := ssim;
        r_att := att |}.

(** The [for] loop of line 189 over the given indices; an exception ends
    the run. *)
Fixpoint run_loop (dataset : list (sample frame))
    (lo_frame_sep hi_frame_sep gt_size2 : Z) (a : accum num)
    (idxs : list Z) : result (accum num) :=
  match idxs with
  | [] => Ok a
  | idx :: rest =>
      r <- pass dataset lo_frame_sep hi_frame_sep gt_size2 idx ;;
      a' <- step a r ;;
      run_loop dataset lo_frame_sep hi_frame_sep gt_size2 a' rest
  end.

(** Lines 186-264 for the given [get_dist_info()] pair. *)
Definition run (dataset : list (sample frame))
    (rank world_size lo_frame_sep hi_frame_sep gt_size2 : Z)
  : result (list (string * series num)) :=
  idxs <- py_range (rank + 1) (Z.of_nat (List.length dataset)) world_size ;;
  a <- run_loop dataset lo_frame_sep hi_frame_sep gt_size2 accum0 idxs ;;
  finish a.

End Run.

Arguments pass {frame num}.
Arguments run_loop {frame num}.
Arguments run {frame num}.

(** ** Choosing the working directory (infer.py, lines 121-130) *)

Module Cwd.

(** How lines 121-130 can end without a directory. *)
Inductive failure : Type :=
| PathPlusStr      (* TypeError: Path + str, line 125 *)
| UnboundCdir      (* NameError: cdir read at line 130 without a binding *)
| CannotParse.     (* Exception('can not parse current working directory') *)

(** [Path(os.getcwd()).name]: the last component, [''] at the root. *)
Definition name (components : list string) : string := last components "".

(** Lines 121-130 on the components of [os.getcwd()] below the root:
    the components of the directory handed to [os.chdir]. *)
Definition choose (components : list string) : list string + failure :=
  if existsb (String.eqb "XFusion") components then
    if String.eqb (name components) "inference" then inl components
    else if String.eqb (name components) "XFusion" then inr PathPlusStr
    else inr UnboundCdir
  else if String.eqb (name components) "conda" then
    inl (components ++ ["XFusion"; "inference"])
  else inr CannotParse.

End Cwd.

(** ** Command-line configuration name (config.py, get_config_name) *)

Module Config.

(** [s[n:]] *)
Fixpoint drop (n : nat) (s : string) : string :=
  match n, s with
  | O, _ => s
  | S n', String _ s' => drop n' s'
  | S _, EmptyString => EmptyString
  end.

(** The part of [s] before the first occurrence of [sep], all of [s] when
    there is none. *)
Fixpoint before (sep s : string) : string :=
  if String.prefix sep s then EmptyString
  else match s with
       | EmptyString => EmptyString
       | String c s' => String c (before sep s')
       end.

(** [arg.split('--config')[1]] for an [arg] that starts with
    ['--config']: what lies between that occurrence and the next one. *)
Definition split_config_1 (arg : string) : string :=
  before "--config" (drop 8 arg).

(** [get_config_name()], with [sys.argv] and [CONFIG_FILE_NAME] as
    arguments. *)
Fixpoint get_config_name (CONFIG_FILE_NAME : string) (argv : list string)
  : result string :=
  match argv with
  | [] => Ok CONFIG_FILE_NAME
  | arg :: rest =>
      if String.prefix "--config" arg then
        if String.eqb arg "--config" then
          match rest with
          | next :: _ => Ok next
          | [] => Raise IndexError
          end
        else
          match split_config_1 arg with
          | EmptyString => Raise IndexError
          | String c name' =>
              if Ascii.eqb c "="%char then Ok name'
              else Ok (String c name')
          end
      else get_config_name CONFIG_FILE_NAME rest
  end.

End Config.

(** * Properties *)

(** ** Index lemmas *)

Lemma hi_start_blkStart (idx hi : Z) :
  0 <= idx -> 1 <= hi -> hi_start idx hi = Spec.blkStart idx hi.
Proof.
  intros Hidx Hhi. unfold hi_start, Spec.blkStart.
  replace (hi * 2) with (2 * hi) by lia.
  assert (0 <= idx / (2 * hi)) by (apply Z.div_pos; lia).
  rewrite <- Z.mul_assoc, (Z.mul_comm hi 2).
  apply Z.max_r. nia.
Qed.

Lemma hi_end_blkEnd (g idx hi : Z) :
  hi_end g idx hi = Spec.blkEnd g idx hi.
Proof.
  unfold hi_end, Spec.blkEnd, Spec.blkStart.
  f_equal. replace (hi * 2) with (2 * hi) by lia. ring.
Qed.

Lemma blkStart_bounds (idx hi : Z) :
  1 <= hi ->
  Spec.blkStart idx hi <= idx < Spec.blkStart idx hi + 2 * hi.
Proof.
  intros Hhi. unfold Spec.blkStart.
  pose proof (Z.div_mod idx (2 * hi) ltac:(lia)) as E.
  pose proof (Z.mod_pos_bound idx (2 * hi) ltac:(lia)) as B.
  lia.
Qed.

Lemma lo_prev_clamp (len idx lo : Z) :
  0 <= idx < len -> 1 <= lo ->
  lo_prev idx lo = Spec.clamp (idx - lo) 0 (len - 1).
Proof. intros. unfold lo_prev, Spec.clamp. lia. Qed.

Lemma lo_next_clamp (len idx lo : Z) :
  0 <= idx < len -> 1 <= lo ->
  lo_next len idx lo = Spec.clamp (idx + lo) 0 (len - 1).
Proof. intros. unfold lo_next, Spec.clamp. lia. Qed.

(** ** Boundary flag *)

Lemma mask_flag_cases (len idx lo hi : Z) :
  (mask_flag len idx lo hi = 1 /\
   (idx = hi_start idx hi \/ idx = lo_next len idx lo)) \/
  (mask_flag len idx lo hi = 0 /\
   ~ (idx = hi_start idx hi \/ idx = lo_next len idx lo)).
Proof.
  unfold mask_flag.
  destruct (idx =? hi_start idx hi) eqn:E1;
    destruct (idx =? lo_next len idx lo) eqn:E2; simpl;
    rewrite ?Z.eqb_eq, ?Z.eqb_neq in *; intuition lia.
Qed.

(** A completed assembly returns the flag [mask_flag] computes. *)
Lemma build_window_mask (frame : Type) (dataset : list (sample frame))
    (idx lo hi gt_size2 : Z) (w : window frame) (m : Z) :
  outcome (build_window dataset idx lo hi gt_size2) = Ok (w, m) ->
  m = mask_flag (Z.of_nat (List.length dataset)) idx lo hi.
Proof.
  unfold outcome, build_window, mbind.
  repeat match goal with
         | |- context [match ?x with _ => _ end] => destruct x
         end; simpl; intros Hrun; inversion Hrun; reflexivity.
Qed.

(** C1: for a target index [0 <= idx < N] with [loSep >= 1] and
    [hiSep >= 1], the value appended to [masks] is 1 exactly when
    [idx == blkStart] or [idx == clamp(idx+loSep, 0, N-1)], and 0 otherwise;
    a completed window assembly records exactly that value. *)
Theorem C1_boundary_flag (frame : Type) (dataset : list (sample frame))
    (idx lo hi gt_size2 : Z) :
  let N := Z.of_nat (List.length dataset) in
  0 <= idx < N -> 1 <= lo -> 1 <= hi ->
  (mask_flag N idx lo hi = 1 <-> Spec.boundary N idx lo hi) /\
  (mask_flag N idx lo hi = 0 <-> ~ Spec.boundary N idx lo hi) /\
  (forall w m,
      outcome (build_window dataset idx lo hi gt_size2) = Ok (w, m) ->
      m = mask_flag N idx lo hi).
Proof.
  intros N Hidx Hlo Hhi.
  assert (HB : Spec.boundary N idx lo hi <->
               (idx = hi_start idx hi \/ idx = lo_next N idx lo)).
  { unfold Spec.boundary.
    rewrite <- (hi_start_blkStart idx hi) by lia.
    rewrite <- (lo_next_clamp N idx lo) by lia. tauto. }
  split; [| split].
  - destruct (mask_flag_cases N idx lo hi) as [[E C] | [E C]]; rewrite E.
    + tauto.
    + split; [discriminate | tauto].
  - destruct (mask_flag_cases N idx lo hi) as [[E C] | [E C]]; rewrite E.
    + split; [discriminate | tauto].
    + tauto.
  - intros w m. apply build_window_mask.
Qed.

Lemma C1_boundary_flag_witness :
  mask_flag 10 9 2 1 = 1 <-> Spec.boundary 10 9 2 1.
Proof.
  exact (proj1 (C1_boundary_flag nat Demo.dataset 9 2 1 100
                  ltac:(simpl; lia) ltac:(lia) ltac:(lia))).
Defined.

(** ** Running the logging computations *)

Lemma getitem_in_range (frame : Type) (dataset : list (sample frame)) (i : Z) :
  0 <= i < Z.of_nat (List.length dataset) ->
  exists s, getitem dataset i = Ok s /\
            nth_error dataset (Z.to_nat i) = Some s.
Proof.
  intros Hi. unfold getitem.
  replace ((0 <=? i) && (i <? Z.of_nat (List.length dataset))) with true
    by (symmetry; apply andb_true_intro; split;
        [apply Z.leb_le | apply Z.ltb_lt]; lia).
  destruct (nth_error dataset (Z.to_nat i)) as [s |] eqn:E.
  - exists s. split; reflexivity.
  - apply nth_error_None in E. lia.
Qed.

Lemma getitem_out_of_range (frame : Type) (dataset : list (sample frame))
    (i : Z) :
  ~ (0 <= i < Z.of_nat (List.length dataset)) ->
  getitem dataset i = Raise IndexError.
Proof.
  intros Hi. unfold getitem.
  destruct ((0 <=? i) && (i <? Z.of_nat (List.length dataset))) eqn:E;
    [| reflexivity].
  apply andb_prop in E. destruct E as [E1 E2].
  apply Z.leb_le in E1. apply Z.ltb_lt in E2. lia.
Qed.

Section Logs.

Variable frame : Type.
Variable P : Z -> Prop.

Lemma logs_in_ret (A : Type) (a : A) : logs_in P (ret a).
Proof. intros log H. exact H. Qed.

Lemma logs_in_lift (A : Type) (r : result A) : logs_in P (lift r).
Proof. intros log H. exact H. Qed.

Lemma logs_in_lookup (dataset : list (sample frame)) (i : Z) :
  P i -> logs_in P (lookup dataset i).
Proof.
  intros Hi log H. simpl. apply Forall_app. split; [exact H |].
  constructor; [exact Hi | constructor].
Qed.

Lemma logs_in_bind (A B : Type) (m : M A) (k : A -> M B) :
  logs_in P m -> (forall a, logs_in P (k a)) -> logs_in P (mbind m k).
Proof.
  intros Hm Hk log H. unfold mbind.
  specialize (Hm log H). destruct (m log) as [log' [a | e]]; simpl in *.
  - apply Hk. exact Hm.
  - exact Hm.
Qed.

Lemma logs_in_lookups_of (A : Type) (m : M A) :
  logs_in P m -> Forall P (lookups_of m).
Proof. intros H. apply H. constructor. Qed.

End Logs.

Ltac logs_step :=
  first
    [ apply logs_in_ret
    | apply logs_in_lift
    | apply logs_in_lookup
    | apply logs_in_bind; [| intros ?]
    | match goal with
      | |- logs_in _ (if ?b then _ else _) => destruct b
      end ].

Lemma logs_in_assemble_lq (frame : Type) (P : Z -> Prop)
    (dataset : list (sample frame)) (idx lo : Z) (v : sample frame) :
  P (lo_prev idx lo) ->
  P (lo_next (Z.of_nat (List.length dataset)) idx lo) ->
  logs_in P (assemble_lq dataset idx lo v).
Proof.
  intros Hp Hn. unfold assemble_lq, slot. cbv zeta.
  repeat logs_step; assumption.
Qed.

Lemma logs_in_assemble_hq (frame : Type) (P : Z -> Prop)
    (dataset : list (sample frame)) (idx hi g : Z) (v : sample frame) :
  P (hi_start idx hi) -> P (hi_end g idx hi) ->
  logs_in P (assemble_hq dataset idx hi g v).
Proof.
  intros Hs He. unfold assemble_hq. cbv zeta.
  repeat logs_step; assumption.
Qed.

Lemma logs_in_build_window (frame : Type) (P : Z -> Prop)
    (dataset : list (sample frame)) (idx lo hi g : Z) :
  P idx -> P (lo_prev idx lo) ->
  P (lo_next (Z.of_nat (List.length dataset)) idx lo) ->
  P (hi_start idx hi) -> P (hi_end g idx hi) ->
  logs_in P (build_window dataset idx lo hi g).
Proof.
  intros Hi Hp Hn Hs He. unfold build_window. cbv zeta.
  apply logs_in_bind; [apply logs_in_lookup; exact Hi | intros v].
  apply logs_in_bind; [apply logs_in_lift | intros r].
  apply logs_in_bind; [apply logs_in_assemble_lq; assumption | intros l].
  apply logs_in_bind; [apply logs_in_assemble_hq; assumption | intros h].
  apply logs_in_ret.
Qed.

(** ** High-resolution reference pair *)

Lemma blkStart_multiple (idx hi : Z) :
  exists k, Spec.blkStart idx hi = k * (2 * hi).
Proof. exists (idx / (2 * hi)). reflexivity. Qed.

(** The pair assembled when both looked-up references have the shape the
    branch expects. *)
Lemma assemble_hq_pair (frame : Type) (dataset : list (sample frame))
    (idx hi g : Z) (v s e : sample frame) (rs re : tensor frame)
    (a b : frame) :
  hi * 2 <> 0 ->
  getitem dataset (hi_start idx hi) = Ok s ->
  getitem dataset (hi_end g idx hi) = Ok e ->
  get_ref s (if has_gt s then "gt" else "image") = Ok rs ->
  get_ref e (if has_gt s then "gt" else "image") = Ok re ->
  (rs = T3 a /\ re = T3 b) \/
  (exists ta tb, rs = T4 (a :: ta) /\ re = T4 (b :: tb)) ->
  outcome (assemble_hq dataset idx hi g v) = Ok [a; b].
Proof.
  intros Hhi Hs He Hrs Hre Hshape.
  unfold outcome, assemble_hq, mbind, lookup, lift, ret.
  apply Z.eqb_neq in Hhi. rewrite Hhi. simpl.
  rewrite Hs, Hrs.
  destruct Hshape as [[-> ->] | (ta & tb & -> & ->)]; simpl;
    rewrite ?He, ?Hre; reflexivity.
Qed.

(** C3: for a valid target index and [hiSep >= 1], the reference pair is
    looked up at [blkStart = floor(idx/(2*hiSep))*(2*hiSep)] and at
    [blkEnd = min(maxValidHiIndex, blkStart + 2*hiSep)] and nowhere else;
    [blkStart] is a multiple of [2*hiSep] and
    [blkStart <= idx < blkStart + 2*hiSep]; the pair holds the reference at
    [blkStart] followed by the reference at [blkEnd] (their leading slices
    when the references have 4 dimensions). *)
Theorem C3_hi_reference_pair (frame : Type) (dataset : list (sample frame))
    (idx hi gt_size2 : Z) (val_data_ : sample frame) :
  0 <= idx < Z.of_nat (List.length dataset) -> 1 <= hi ->
  hi_start idx hi = Spec.blkStart idx hi /\
  hi_end gt_size2 idx hi = Spec.blkEnd gt_size2 idx hi /\
  (exists k, Spec.blkStart idx hi = k * (2 * hi)) /\
  Spec.blkStart idx hi <= idx < Spec.blkStart idx hi + 2 * hi /\
  Forall (fun i => i = Spec.blkStart idx hi \/
                   i = Spec.blkEnd gt_size2 idx hi)
         (lookups_of (assemble_hq dataset idx hi gt_size2 val_data_)) /\
  (forall s e rs re a b,
      getitem dataset (Spec.blkStart idx hi) = Ok s ->
      getitem dataset (Spec.blkEnd gt_size2 idx hi) = Ok e ->
      get_ref s (if has_gt s then "gt" else "image") = Ok rs ->
      get_ref e (if has_gt s then "gt" else "image") = Ok re ->
      (rs = T3 a /\ re = T3 b) \/
      (exists ta tb, rs = T4 (a :: ta) /\ re = T4 (b :: tb)) ->
      outcome (assemble_hq dataset idx hi gt_size2 val_data_) = Ok [a; b]).
Proof.
  intros Hidx Hhi.
  pose proof (hi_start_blkStart idx hi ltac:(lia) Hhi) as Es.
  pose proof (hi_end_blkEnd gt_size2 idx hi) as Ee.
  split; [exact Es |]. split; [exact Ee |].
  split; [apply blkStart_multiple |].
  split; [apply blkStart_bounds; exact Hhi |].
  split.
  - apply logs_in_lookups_of.
    apply logs_in_assemble_hq; [left; exact Es | right; exact Ee].
  - intros s e rs re a b Hs He Hrs Hre Hshape.
    rewrite <- Es in Hs. rewrite <- Ee in He.
    apply (assemble_hq_pair frame dataset idx hi gt_size2 val_data_
             s e rs re a b); try assumption. lia.
Qed.

Lemma C3_hi_reference_pair_witness :
  hi_start 5 2 = 4 /\
  outcome (assemble_hq Demo.dataset 5 2 9 (Demo.sample_at 5))
  = Ok [1004; 1008]%nat.
Proof.
  pose proof (C3_hi_reference_pair nat Demo.dataset 5 2 9 (Demo.sample_at 5)
                ltac:(simpl; lia) ltac:(lia)) as (Es & _ & _ & _ & _ & Hpair).
  split; [exact Es |].
  apply (Hpair (Demo.sample_at 4) (Demo.sample_at 8)
               (T3 1004%nat) (T3 1008%nat)); try reflexivity.
  left. split; reflexivity.
Defined.

(** ** Low-resolution triple *)

Lemma center_slice_total (frame : Type) (dataset : list (sample frame))
    (s : sample frame) (n : nat) :
  Forall (fun s => (center_frame_idx < List.length (lq s))%nat) dataset ->
  nth_error dataset n = Some s ->
  exists f, center_slice s = Ok f.
Proof.
  intros Hall Hn. apply nth_error_In in Hn.
  rewrite Forall_forall in Hall. specialize (Hall s Hn).
  unfold center_slice.
  destruct (nth_error (lq s) center_frame_idx) as [f |] eqn:E.
  - exists f. reflexivity.
  - apply nth_error_None in E. lia.
Qed.

Lemma center_slice_nth (frame : Type) (s : sample frame) (f : frame) :
  center_slice s = Ok f -> nth_error (lq s) 1 = Some f.
Proof.
  unfold center_slice, center_frame_idx.
  destruct (nth_error (lq s) 1) as [f' |]; simpl; intros H; inversion H.
  reflexivity.
Qed.

(** C2: for [0 <= idx < N] and [loSep >= 1] the low-resolution triple is
    the [center_frame_idx] slices (frame 1 of each stack) of the samples at
    [clamp(idx-loSep, 0, N-1)], [idx], [clamp(idx+loSep, 0, N-1)], in that
    order; for N=10, loSep=2, idx=9 the indices are (7, 9, 9); for
    [idx < loSep] the first slot is the one of sample 0 and for
    [idx > N-1-loSep] the last slot is the one of sample [N-1]. *)
Theorem C2_lq_triple (frame : Type) (dataset : list (sample frame))
    (idx lo : Z) :
  let N := Z.of_nat (List.length dataset) in
  0 <= idx < N -> 1 <= lo ->
  Forall (fun s => (1 < List.length (lq s))%nat) dataset ->
  lq_indices N idx lo
  = (Spec.clamp (idx - lo) 0 (N - 1), idx, Spec.clamp (idx + lo) 0 (N - 1)) /\
  lq_indices 10 9 2 = (7, 9, 9) /\
  exists sp sc sn fp fc fn,
    nth_error dataset (Z.to_nat (Spec.clamp (idx - lo) 0 (N - 1))) = Some sp /\
    nth_error dataset (Z.to_nat idx) = Some sc /\
    nth_error dataset (Z.to_nat (Spec.clamp (idx + lo) 0 (N - 1))) = Some sn /\
    nth_error (lq sp) 1 = Some fp /\
    nth_error (lq sc) 1 = Some fc /\
    nth_error (lq sn) 1 = Some fn /\
    outcome (assemble_lq dataset idx lo sc) = Ok [fp; fc; fn] /\
    lookups_of (assemble_lq dataset idx lo sc)
    = [Spec.clamp (idx - lo) 0 (N - 1); Spec.clamp (idx + lo) 0 (N - 1)] /\
    (idx < lo -> nth_error dataset 0 = Some sp) /\
    (N - 1 - lo < idx -> nth_error dataset (Z.to_nat (N - 1)) = Some sn).
Proof.
  intros N Hidx Hlo Hall.
  pose proof (lo_prev_clamp N idx lo Hidx Hlo) as Ep.
  pose proof (lo_next_clamp N idx lo Hidx Hlo) as En.
  split; [unfold lq_indices; rewrite Ep, En; reflexivity |].
  split; [reflexivity |].
  rewrite <- Ep, <- En.
  destruct (getitem_in_range frame dataset (lo_prev idx lo)) as (sp & Gp & Np);
    [unfold lo_prev; fold N; lia |].
  destruct (getitem_in_range frame dataset idx) as (sc & Gc & Nc);
    [fold N; lia |].
  destruct (getitem_in_range frame dataset (lo_next N idx lo))
    as (sn & Gn & Nn); [unfold lo_next; fold N; lia |].
  destruct (center_slice_total frame dataset sp _ Hall Np) as (fp & Cp).
  destruct (center_slice_total frame dataset sc _ Hall Nc) as (fc & Cc).
  destruct (center_slice_total frame dataset sn _ Hall Nn) as (fn & Cn).
  exists sp, sc, sn, fp, fc, fn.
  repeat (split; [first [assumption | apply center_slice_nth; assumption] |]).
  split; [| split; [| split]].
  - unfold outcome, assemble_lq, slot, mbind, lookup, lift, ret.
    fold N. simpl. rewrite Gp, Cp, Cc, Gn, Cn. reflexivity.
  - unfold lookups_of, assemble_lq, slot, mbind, lookup, lift, ret.
    fold N. simpl. rewrite Gp, Cp, Cc, Gn, Cn. reflexivity.
  - intros Hedge. rewrite <- Np. f_equal. unfold lo_prev. lia.
  - intros Hedge. rewrite <- Nn. f_equal. unfold lo_next. lia.
Qed.

Lemma C2_lq_triple_witness :
  outcome (assemble_lq Demo.dataset 9 2 (Demo.sample_at 9))
  = Ok [71; 91; 91]%nat.
Proof.
  destruct (C2_lq_triple nat Demo.dataset 9 2
              ltac:(simpl; lia) ltac:(lia)
              ltac:(repeat constructor))
    as (_ & _ & sp & sc & sn & fp & fc & fn &
        Np & Nc & Nn & Fp & Fc & Fn & Hout & _).
  vm_compute in Np. injection Np as <-.
  vm_compute in Nc. injection Nc as <-.
  vm_compute in Nn. injection Nn as <-.
  vm_compute in Fp. injection Fp as <-.
  vm_compute in Fc. injection Fc as <-.
  vm_compute in Fn. injection Fn as <-.
  exact Hout.
Defined.

(** ** Missing reference *)

(** C7: when the sample at the target index has neither a [gt] nor an
    [image] entry, window assembly fails with the missing-reference error,
    which in the code is Python's [KeyError] on ['image']. *)
Theorem C7_missing_reference (frame : Type) (dataset : list (sample frame))
    (idx lo hi gt_size2 : Z) (s : sample frame) :
  0 <= idx < Z.of_nat (List.length dataset) ->
  nth_error dataset (Z.to_nat idx) = Some s ->
  gt s = None -> image s = None ->
  outcome (build_window dataset idx lo hi gt_size2) = Raise (KeyError "image").
Proof.
  intros Hidx Hs Hgt Himg.
  destruct (getitem_in_range frame dataset idx Hidx) as (s' & G & N').
  assert (s' = s) by congruence. subst s'.
  unfold outcome, build_window, mbind, lookup, lift. simpl.
  rewrite G. unfold has_gt, get_ref. rewrite Hgt. simpl.
  rewrite Himg. reflexivity.
Qed.

Lemma C7_missing_reference_witness :
  outcome (build_window [Demo.sample_at 0; Demo.bare; Demo.sample_at 2]
                        1 1 1 2)
  = Raise (KeyError "image").
Proof.
  apply (C7_missing_reference nat
           [Demo.sample_at 0; Demo.bare; Demo.sample_at 2] 1 1 1 2 Demo.bare);
    try reflexivity.
  simpl. lia.
Defined.

(** ** Bounds of the Frame Source lookups *)

(** C4, as stated, fails: with ten samples, [hiSep = 1], [idx = 9] and an
    upper bound [gt_size[2] = 100], the block-end lookup uses index 10. *)
Lemma C4_lookup_bounds_counterexample :
  ~ (forall (dataset : list (sample nat)) (idx lo hi gt_size2 : Z),
        0 <= idx < Z.of_nat (List.length dataset) -> 1 <= lo -> 1 <= hi ->
        Forall (fun i => 0 <= i <= Z.of_nat (List.length dataset) - 1)
               (lookups_of (build_window dataset idx lo hi gt_size2))).
Proof.
  intros H.
  specialize (H Demo.dataset 9 1 1 100 ltac:(simpl; lia) ltac:(lia) ltac:(lia)).
  rewrite Forall_forall in H.
  specialize (H 10). simpl in H.
  assert (In 10 (lookups_of (build_window Demo.dataset 9 1 1 100))) as Hin.
  { vm_compute. tauto. }
  specialize (H Hin). lia.
Qed.

(** C4, amended: for [0 <= idx < N], [loSep >= 1], [hiSep >= 1] every
    lookup of the window assembly other than the block-end one uses an
    index within [0, N-1]; the block-end index is bounded above by
    [gt_size[2]], so all lookups are within [0, N-1] whenever
    [0 <= gt_size[2] <= N-1]. *)
Theorem C4_lookup_bounds (frame : Type) (dataset : list (sample frame))
    (idx lo hi gt_size2 : Z) :
  let N := Z.of_nat (List.length dataset) in
  0 <= idx < N -> 1 <= lo -> 1 <= hi ->
  Forall (fun i => 0 <= i <= N - 1 \/ i = hi_end gt_size2 idx hi)
         (lookups_of (build_window dataset idx lo hi gt_size2)) /\
  hi_end gt_size2 idx hi <= gt_size2 /\
  (0 <= gt_size2 <= N - 1 ->
   Forall (fun i => 0 <= i <= N - 1)
          (lookups_of (build_window dataset idx lo hi gt_size2))).
Proof.
  intros N Hidx Hlo Hhi.
  pose proof (hi_start_blkStart idx hi ltac:(lia) Hhi) as Es.
  pose proof (blkStart_bounds idx hi Hhi) as Bs.
  assert (0 <= Spec.blkStart idx hi) as Hs0.
  { rewrite <- Es. unfold hi_start. lia. }
  split; [| split].
  - apply logs_in_lookups_of.
    apply logs_in_build_window; fold N.
    + left. lia.
    + left. unfold lo_prev. lia.
    + left. unfold lo_next. lia.
    + left. rewrite Es. lia.
    + right. reflexivity.
  - unfold hi_end. lia.
  - intros Hg.
    apply logs_in_lookups_of.
    apply logs_in_build_window; fold N.
    + lia.
    + unfold lo_prev. lia.
    + unfold lo_next. lia.
    + rewrite Es. lia.
    + rewrite hi_end_blkEnd. unfold Spec.blkEnd. lia.
Qed.

Lemma C4_lookup_bounds_witness :
  Forall (fun i => 0 <= i <= 10 - 1)
         (lookups_of (build_window Demo.dataset 9 1 1 9)).
Proof.
  exact (proj2 (proj2 (C4_lookup_bounds nat Demo.dataset 9 1 1 9
                         ltac:(simpl; lia) ltac:(lia) ltac:(lia)))
               ltac:(simpl; lia)).
Defined.

(** ** Image Codec Adapter *)



(** Beyond the exactly representable sizes it is not: the binary64 square
    root of this size rounds up to an integer. *)
Lemma int_sqrt_rounds_up :
  Codec.int_sqrt 9007199136250224 = 94906265 /\
  Z.sqrt 9007199136250224 = 94906264.
Proof. split; vm_compute; reflexivity. Qed.















Lemma dispatch_zero_batch (rgb2bgr : bool) (c h w : Z) :
  Codec.dispatch rgb2bgr [0; c; h; w] = Raise ZeroDivisionError.
Proof. reflexivity. Qed.















(** ** Report *)

Section ReportFacts.

Variable num : Type.

Lemma vstack_uniform (w : nat) (rows : list (list num)) :
  rows <> [] ->
  Forall (fun r => List.length r = w) rows ->
  vstack rows = Ok (Z.of_nat w, rows).
Proof.
  intros Hne Hall. destruct rows as [| r rest]; [congruence |].
  inversion Hall as [| ? ? Hr Hrest]; subst. unfold vstack.
  replace (forallb (fun r' => Nat.eqb (List.length r') (List.length r)) rest)
    with true; [reflexivity |].
  symmetry. apply forallb_forall. intros r' Hin.
  rewrite Forall_forall in Hrest. rewrite (Hrest r' Hin).
  apply Nat.eqb_refl.
Qed.

Lemma make_dict_idem (w : Z) (x y : list (list num))
    (o : option (list (string * colref num))) :
  make_dict w x (make_dict w y o) = make_dict w x o.
Proof.
  unfold make_dict. destruct (w =? 4); [reflexivity |].
  destruct (w =? 5); reflexivity.
Qed.

Lemma column_length (k w : nat) (m : list (list num)) :
  (k < w)%nat ->
  Forall (fun r => List.length r = w) m ->
  List.length (column k m) = List.length m.
Proof.
  intros Hk Hall. induction Hall as [| r m Hr Hm IH]; [reflexivity |].
  unfold column in *. simpl. rewrite length_app, IH.
  destruct (nth_error r k) eqn:E; [reflexivity |].
  apply nth_error_None in E. lia.
Qed.

Lemma last_entry_ok (att : list num) :
  (2 <= List.length att)%nat -> exists x, last_entry att = Ok x.
Proof.
  destruct att as [| x [| y l]]; simpl; intros H; try lia.
  eexists. reflexivity.
Qed.

Lemma last_entry_short (att : list num) :
  (List.length att < 2)%nat -> last_entry att = Raise IndexError.
Proof.
  destruct att as [| x [| y l]]; simpl; intros H; try lia; reflexivity.
Qed.

(** The lists after the loop: every row appended in order, and
    [result_dict] bound as by the last pass. *)
Lemma loop_uniform (w : nat) (rows : list (row num)) :
  forall a : accum num,
    (2 <= w)%nat ->
    all_width w rows ->
    Forall (fun r => List.length r = w) (atts a) ->
    exists a',
      loop a rows = Ok a' /\
      psnrs a' = psnrs a ++ map r_psnr rows /\
      aads a' = aads a ++ map r_aad rows /\
      ssims a' = ssims a ++ map r_ssim rows /\
      atts a' = atts a ++ map r_att rows /\
      masks a' = masks a ++ map r_mask rows /\
      result_dict a' =
        match rows with
        | [] => result_dict a
        | _ :: _ => make_dict (Z.of_nat w) (atts a') (result_dict a)
        end.
Proof.
  induction rows as [| r rest IH]; intros a H2 Hw Ha.
  - exists a. simpl. rewrite !app_nil_r. repeat split; reflexivity.
  - inversion Hw as [| ? ? Hr Hrest]; subst.
    assert (Forall (fun x => List.length x = List.length (r_att r))
                   (atts a ++ [r_att r])) as Ha'.
    { apply Forall_app. split; [exact Ha |]. repeat constructor. }
    simpl. unfold step.
    destruct (last_entry_ok (r_att r) H2) as (x & ->). cbn [bind].
    assert (atts a ++ [r_att r] <> []) as Hne
        by (destruct (atts a); discriminate).
    rewrite (vstack_uniform (List.length (r_att r)) _ Hne Ha').
    simpl.
    match goal with
    | |- context [loop ?x rest] => destruct (IH x H2 Hrest Ha')
        as (a' & Hrun & Hp & Had & Hs & Hat & Hm & Hd)
    end.
    simpl in *. exists a'.
    split; [exact Hrun |].
    split; [rewrite Hp, <- app_assoc; reflexivity |].
    split; [rewrite Had, <- app_assoc; reflexivity |].
    split; [rewrite Hs, <- app_assoc; reflexivity |].
    split; [rewrite Hat, <- app_assoc; reflexivity |].
    split; [rewrite Hm, <- app_assoc; reflexivity |].
    rewrite Hd. destruct rest as [| r' rest'].
    + simpl in Hat. rewrite app_nil_r in Hat. rewrite Hat. reflexivity.
    + apply make_dict_idem.
Qed.

(** Entry [i] of column [k] is entry [k] of row [i]. *)
Lemma column_nth (k w : nat) (m : list (list num)) :
  (k < w)%nat ->
  Forall (fun r => List.length r = w) m ->
  forall i r, nth_error m i = Some r ->
              nth_error (column k m) i = nth_error r k.
Proof.
  intros Hk Hall. induction Hall as [| r0 m Hr Hm IH]; intros i r Hi.
  - destruct i; discriminate.
  - unfold column in *. simpl.
    destruct (nth_error r0 k) as [x |] eqn:E;
      [| apply nth_error_None in E; lia].
    destruct i as [| i]; simpl in *.
    + inversion Hi; subst. symmetry. exact E.
    + apply IH. exact Hi.
Qed.

(** A first attention vector with fewer than two entries stops the run at
    line 250. *)
Lemma report_short (w : nat) (rows : list (row num)) :
  rows <> [] -> all_width w rows -> (w < 2)%nat ->
  report rows = Raise IndexError.
Proof.
  intros Hne Hw Hlt. destruct rows as [| r rest]; [congruence |].
  inversion Hw as [| ? ? Hr Hrest]; subst.
  unfold report. simpl. unfold step.
  rewrite (last_entry_short (r_att r) Hlt). reflexivity.
Qed.

End ReportFacts.

(** C9: the schema of the final report follows the attention width: with
    width 4 the attention columns are [t-1 lo, t lo, t+1 lo, t hi], with
    width 5 they are [t-1 lo, t lo, t+1 lo, t-1 hi, t+1 hi], after [psnr],
    [aad], [ssim] and before [mask]; any other width is invalid input: a
    width below 2 stops the first pass with the [IndexError] of line 250,
    any other one leaves [result_dict] unbound and the run ends with a
    [NameError]; every column, the mask column of the boundary flags
    included, has one entry per processed index. *)
Theorem C9_report_schema (num : Type) (rows : list (row num)) (w : nat) :
  rows <> [] -> all_width w rows ->
  let att_all := map r_att rows in
  let metrics := [("psnr", Floats (map r_psnr rows));
                  ("aad", Floats (map r_aad rows));
                  ("ssim", Floats (map r_ssim rows))] in
  let mask := [("mask", Ints (map r_mask rows))] in
  (w = 4%nat ->
   report rows
   = Ok (metrics ++
         [("t-1 lo", Floats (column 0 att_all));
          ("t lo", Floats (column 1 att_all));
          ("t+1 lo", Floats (column 2 att_all));
          ("t hi", Floats (column 3 att_all))] ++ mask)) /\
  (w = 5%nat ->
   report rows
   = Ok (metrics ++
         [("t-1 lo", Floats (column 0 att_all));
          ("t lo", Floats (column 1 att_all));
          ("t+1 lo", Floats (column 2 att_all));
          ("t-1 hi", Floats (column 3 att_all));
          ("t+1 hi", Floats (column 4 att_all))] ++ mask)) /\
  ((2 <= w)%nat -> w <> 4%nat -> w <> 5%nat ->
   report rows = Raise (NameError "result_dict")) /\
  ((w < 2)%nat -> report rows = Raise IndexError) /\
  (forall cols, report rows = Ok cols ->
     Forall (fun kv => series_length (snd kv) = List.length rows) cols) /\
  (forall k i r, (k < w)%nat -> nth_error rows i = Some r ->
     nth_error (column k att_all) i = nth_error (r_att r) k).
Proof.
  intros Hne Hw att_all metrics mask.
  assert (Hcol : forall k i r, (k < w)%nat -> nth_error rows i = Some r ->
                  nth_error (column k att_all) i = nth_error (r_att r) k).
  { intros k i r Hk Hi. unfold att_all.
    apply (column_nth num k w); [exact Hk | apply Forall_map; exact Hw |].
    rewrite nth_error_map, Hi. reflexivity. }
  destruct (le_lt_dec 2 w) as [H2 | Hlt].
  2: { pose proof (report_short num w rows Hne Hw Hlt) as Hshort.
       split; [intros ->; lia |]. split; [intros ->; lia |].
       split; [intros; lia |]. split; [intros _; exact Hshort |].
       split; [| exact Hcol].
       intros cols Hcols. rewrite Hshort in Hcols. discriminate. }
  destruct (loop_uniform num w rows (@accum0 num) H2 Hw ltac:(constructor))
    as (a & Hrun & Hp & Had & Hs & Hat & Hm & Hd).
  change (psnrs a = map r_psnr rows) in Hp.
  change (aads a = map r_aad rows) in Had.
  change (ssims a = map r_ssim rows) in Hs.
  change (atts a = map r_att rows) in Hat.
  change (masks a = map r_mask rows) in Hm.
  assert (result_dict a = make_dict (Z.of_nat w) (atts a) None) as Hd'
      by (rewrite Hd; destruct rows; [congruence | reflexivity]).
  clear Hd. rename Hd' into Hd.
  assert (masks a <> []) as Hmne
      by (rewrite Hm; destruct rows; [congruence | discriminate]).
  assert (Forall (fun r => List.length r = w) att_all) as Hall.
  { unfold att_all. apply Forall_map. exact Hw. }
  assert (forall d, result_dict a = Some d ->
            report rows
            = Ok (map (fun kv => (fst kv, deref num a (snd kv)))
                      (d ++ [("mask", RefMasks num)]))) as Hsome.
  { intros d Ed. unfold report. rewrite Hrun. simpl. unfold finish.
    rewrite Ed. destruct (masks a); [congruence | reflexivity]. }
  assert (result_dict a = None ->
          report rows = Raise (NameError "result_dict")) as Hnone.
  { intros Ed. unfold report. rewrite Hrun. simpl. unfold finish.
    rewrite Ed. destruct (masks a); [congruence | reflexivity]. }
  assert (w = 4%nat ->
          report rows
          = Ok (metrics ++
                [("t-1 lo", Floats (column 0 att_all));
                 ("t lo", Floats (column 1 att_all));
                 ("t+1 lo", Floats (column 2 att_all));
                 ("t hi", Floats (column 3 att_all))] ++ mask)) as H4.
  { intros ->. rewrite (Hsome _ Hd). simpl.
    rewrite Hp, Had, Hs, Hat, Hm. reflexivity. }
  assert (w = 5%nat ->
          report rows
          = Ok (metrics ++
                [("t-1 lo", Floats (column 0 att_all));
                 ("t lo", Floats (column 1 att_all));
                 ("t+1 lo", Floats (column 2 att_all));
                 ("t-1 hi", Floats (column 3 att_all));
                 ("t+1 hi", Floats (column 4 att_all))] ++ mask)) as H5.
  { intros ->. rewrite (Hsome _ Hd). simpl.
    rewrite Hp, Had, Hs, Hat, Hm. reflexivity. }
  assert (w <> 4%nat -> w <> 5%nat ->
          report rows = Raise (NameError "result_dict")) as Hother.
  { intros N4 N5. apply Hnone. rewrite Hd. unfold make_dict.
    replace (Z.of_nat w =? 4) with false by (symmetry; apply Z.eqb_neq; lia).
    replace (Z.of_nat w =? 5) with false by (symmetry; apply Z.eqb_neq; lia).
    reflexivity. }
  split; [exact H4 |]. split; [exact H5 |].
  split; [intros _; exact Hother |]. split; [intros; lia |].
  split; [| exact Hcol].
  intros cols Hcols.
  assert (List.length (map r_att rows) = List.length rows) as Hlen
      by apply length_map.
  destruct (Nat.eq_dec w 4) as [E4 | N4];
    [| destruct (Nat.eq_dec w 5) as [E5 | N5]].
  - rewrite (H4 E4) in Hcols. injection Hcols as <-.
    unfold metrics, mask. simpl.
    repeat (apply Forall_cons || apply Forall_nil); simpl;
      first [ apply length_map
            | rewrite (column_length num _ w att_all);
              [exact Hlen | lia | exact Hall] ].
  - rewrite (H5 E5) in Hcols. injection Hcols as <-.
    unfold metrics, mask. simpl.
    repeat (apply Forall_cons || apply Forall_nil); simpl;
      first [ apply length_map
            | rewrite (column_length num _ w att_all);
              [exact Hlen | lia | exact Hall] ].
  - rewrite (Hother N4 N5) in Hcols. discriminate.
Qed.

Lemma C9_report_schema_witness :
  report [Build_row 1 30 2 9 [1; 2; 3; 4]; Build_row 0 31 3 8 [5; 6; 7; 8]]
  = Ok [("psnr", Floats [30; 31]); ("aad", Floats [2; 3]);
        ("ssim", Floats [9; 8]);
        ("t-1 lo", Floats [1; 5]); ("t lo", Floats [2; 6]);
        ("t+1 lo", Floats [3; 7]); ("t hi", Floats [4; 8]);
        ("mask", Ints [1; 0])].
Proof.
  apply (proj1 (C9_report_schema Z
                  [Build_row 1 30 2 9 [1; 2; 3; 4];
                   Build_row 0 31 3 8 [5; 6; 7; 8]] 4
                  ltac:(discriminate)
                  ltac:(repeat constructor))).
  reflexivity.
Defined.

(** ** PSNR *)

Section Psnr.

Local Open Scope R_scope.
Import Metric.

Lemma ln_10_pos : 0 < ln 10.
Proof. rewrite <- ln_1. apply ln_increasing; lra. Qed.

Lemma psnr_zero : psnr (Fin 0) = PInf.
Proof.
  unfold psnr, fmul, fdiv, flog10.
  destruct (Req_EM_T 0 0) as [_ | N]; [| congruence].
  destruct (Rlt_dec 0 (255 * 255)) as [_ | N]; [| exfalso; lra].
  destruct (Rlt_dec 0 10) as [_ | N]; [reflexivity | exfalso; lra].
Qed.

Lemma psnr_positive (m : R) :
  0 < m -> psnr (Fin m) = Fin (10 * (ln (255 * 255 / m) / ln 10)).
Proof.
  intros Hm. unfold psnr, fmul, fdiv, flog10.
  destruct (Req_EM_T m 0) as [E | _]; [exfalso; lra |].
  destruct (Rlt_dec 0 (255 * 255 / m)) as [_ | N]; [reflexivity |].
  exfalso. apply N. apply Rdiv_lt_0_compat; lra.
Qed.


End Psnr.



(** ** The processed indices *)

Lemma py_range_positive (start stop step : Z) :
  0 < step ->
  py_range start stop step
  = Ok (map (fun k => start + Z.of_nat k * step)
            (seq 0 (Z.to_nat (range_len start stop step)))).
Proof.
  intros Hs. unfold py_range.
  replace (step =? 0) with false by (symmetry; apply Z.eqb_neq; lia).
  replace (0 <? step) with true by (symmetry; apply Z.ltb_lt; lia).
  reflexivity.
Qed.

Lemma py_range_spec (start stop step : Z) :
  0 < step ->
  exists idxs,
    py_range start stop step = Ok idxs /\
    forall i, In i idxs <->
              (start <= i < stop /\ (i - start) mod step = 0).
Proof.
  intros Hs. eexists. split; [apply py_range_positive; exact Hs |].
  intros i. rewrite in_map_iff. unfold range_len. split.
  - intros (k & <- & Hk). apply in_seq in Hk.
    destruct (start <? stop) eqn:E; [| simpl in Hk; lia].
    apply Z.ltb_lt in E.
    assert (0 <= (stop - start - 1) / step) by (apply Z.div_pos; lia).
    assert (Z.of_nat k <= (stop - start - 1) / step) as Hle by lia.
    pose proof (Z.mul_div_le (stop - start - 1) step Hs) as Hm.
    split; [nia |].
    replace (start + Z.of_nat k * step - start) with (Z.of_nat k * step)
      by ring.
    apply Z_mod_mult.
  - intros [[Hlo Hhi] Hmod].
    assert (i - start = step * ((i - start) / step)) as Hq.
    { pose proof (Z.div_mod (i - start) step ltac:(lia)). lia. }
    assert (0 <= (i - start) / step) as Hq0 by (apply Z.div_pos; lia).
    exists (Z.to_nat ((i - start) / step)). split.
    + rewrite Z2Nat.id by exact Hq0. lia.
    + apply in_seq. split; [lia |].
      replace (start <? stop) with true by (symmetry; apply Z.ltb_lt; lia).
      assert ((i - start) / step <= (stop - start - 1) / step)
        by (apply Z.div_le_mono; lia).
      lia.
Qed.

(** [range(start, stop, step)] with a positive step holds exactly the
    [i] in [start, stop) at a multiple of [step] from [start]. *)
Theorem range_membership (start stop step : Z) :
  0 < step ->
  exists idxs,
    py_range start stop step = Ok idxs /\
    forall i, In i idxs <->
              (start <= i < stop /\ (i - start) mod step = 0).
Proof. apply py_range_spec. Qed.

Lemma range_membership_witness :
  exists idxs,
    py_range 1 10 3 = Ok idxs /\
    forall i, In i idxs <-> (1 <= i < 10 /\ (i - 1) mod 3 = 0).
Proof. apply (range_membership 1 10 3). lia. Defined.

(** The workers' shares: with [0 <= rank < world_size], target index 0
    belongs to no worker, every index of [1, N) belongs to the worker of
    rank [(i - 1) mod world_size], and two different ranks share no
    index. *)
Theorem processed_partition (N world_size : Z) :
  0 < world_size ->
  (forall rank idxs,
      0 <= rank ->
      py_range (rank + 1) N world_size = Ok idxs -> ~ In 0 idxs) /\
  (forall i, 1 <= i < N ->
      exists idxs,
        py_range ((i - 1) mod world_size + 1) N world_size = Ok idxs /\
        In i idxs) /\
  (forall r1 r2 idxs1 idxs2 i,
      0 <= r1 < world_size -> 0 <= r2 < world_size ->
      py_range (r1 + 1) N world_size = Ok idxs1 ->
      py_range (r2 + 1) N world_size = Ok idxs2 ->
      In i idxs1 -> In i idxs2 -> r1 = r2).
Proof.
  intros Hw. split; [| split].
  - intros rank idxs Hr Hrun Hin.
    destruct (py_range_spec (rank + 1) N world_size Hw) as (l & El & Hl).
    rewrite El in Hrun. injection Hrun as <-.
    apply Hl in Hin. lia.
  - intros i Hi.
    destruct (py_range_spec ((i - 1) mod world_size + 1) N world_size Hw)
      as (l & El & Hl).
    exists l. split; [exact El |]. apply Hl.
    pose proof (Z.mod_pos_bound (i - 1) world_size Hw) as Hb.
    pose proof (Z.mod_le (i - 1) world_size ltac:(lia) Hw) as Hle.
    split; [lia |].
    replace (i - ((i - 1) mod world_size + 1))
      with ((i - 1) - (i - 1) mod world_size) by ring.
    rewrite Zminus_mod_idemp_r. rewrite Z.sub_diag. apply Z.mod_0_l. lia.
  - intros r1 r2 idxs1 idxs2 i H1 H2 E1 E2 In1 In2.
    destruct (py_range_spec (r1 + 1) N world_size Hw) as (l1 & El1 & Hl1).
    destruct (py_range_spec (r2 + 1) N world_size Hw) as (l2 & El2 & Hl2).
    rewrite El1 in E1. injection E1 as <-.
    rewrite El2 in E2. injection E2 as <-.
    apply Hl1 in In1. apply Hl2 in In2.
    destruct In1 as [_ M1]. destruct In2 as [_ M2].
    pose proof (Z.div_mod (i - (r1 + 1)) world_size ltac:(lia)) as D1.
    pose proof (Z.div_mod (i - (r2 + 1)) world_size ltac:(lia)) as D2.
    rewrite M1 in D1. rewrite M2 in D2.
    remember ((i - (r1 + 1)) / world_size) as q1.
    remember ((i - (r2 + 1)) / world_size) as q2.
    assert (r2 - r1 = world_size * (q1 - q2)) as Hd by lia.
    destruct (Z.eq_dec q1 q2) as [-> | Hq]; [lia |].
    exfalso.
    assert (1 <= q1 - q2 \/ q1 - q2 <= -1) as [Hp | Hn] by lia; nia.
Qed.

Lemma processed_partition_witness :
  exists idxs, py_range ((5 - 1) mod 3 + 1) 10 3 = Ok idxs /\ In 5 idxs.
Proof.
  apply (proj1 (proj2 (processed_partition 10 3 ltac:(lia))) 5). lia.
Defined.

(** ** The whole run *)

Section RunFacts.

Variable frame : Type.
Variable num : Type.
Variable evaluate : window frame -> result (num * num * num * list num).

Lemma step_masks (a a' : accum num) (r : row num) :
  step a r = Ok a' -> masks a' = masks a ++ [r_mask r].
Proof.
  unfold step. destruct (last_entry (r_att r)) as [x | e]; cbn [bind];
    [| discriminate].
  destruct (vstack (atts a ++ [r_att r])) as [[w m] | e];
    simpl; intros H; inversion H. reflexivity.
Qed.

Lemma pass_mask (dataset : list (sample frame)) (lo hi g idx : Z)
    (r : row num) :
  pass evaluate dataset lo hi g idx = Ok r ->
  r_mask r = mask_flag (Z.of_nat (List.length dataset)) idx lo hi.
Proof.
  unfold pass.
  destruct (outcome (build_window dataset idx lo hi g)) as [[w m] | e] eqn:E;
    simpl; [| discriminate].
  destruct (evaluate w) as [[[[p a] s] att] | e]; simpl; [| discriminate].
  intros H. inversion H. simpl.
  apply (build_window_mask frame dataset idx lo hi g w m E).
Qed.

Lemma run_loop_masks (dataset : list (sample frame)) (lo hi g : Z)
    (idxs : list Z) :
  forall a a',
    run_loop evaluate dataset lo hi g a idxs = Ok a' ->
    masks a' = masks a ++
               map (fun idx => mask_flag (Z.of_nat (List.length dataset))
                                         idx lo hi) idxs.
Proof.
  induction idxs as [| idx rest IH]; intros a a' Hrun; simpl in *.
  - inversion Hrun. rewrite app_nil_r. reflexivity.
  - destruct (pass evaluate dataset lo hi g idx) as [r | e] eqn:Ep;
      simpl in Hrun; [| discriminate].
    destruct (step a r) as [a1 | e] eqn:Es; simpl in Hrun; [| discriminate].
    rewrite (IH a1 a' Hrun), (step_masks a a1 r Es), (pass_mask _ _ _ _ _ _ Ep).
    rewrite <- app_assoc. reflexivity.
Qed.

End RunFacts.

(** A completed run processed at least one index, and the last column of
    its report is [mask], holding the boundary flags of the processed
    indices in processing order. *)
Theorem run_mask_column (frame num : Type)
    (evaluate : window frame -> result (num * num * num * list num))
    (dataset : list (sample frame)) (rank world_size lo hi gt_size2 : Z)
    (cols : list (string * series num)) :
  run evaluate dataset rank world_size lo hi gt_size2 = Ok cols ->
  exists idxs others,
    py_range (rank + 1) (Z.of_nat (List.length dataset)) world_size = Ok idxs /\
    idxs <> [] /\
    cols = others ++
           [("mask",
             Ints (map (fun idx => mask_flag (Z.of_nat (List.length dataset))
                                             idx lo hi) idxs))].
Proof.
  unfold run.
  destruct (py_range (rank + 1) (Z.of_nat (List.length dataset)) world_size)
    as [idxs | e]; simpl; [| discriminate].
  destruct (run_loop evaluate dataset lo hi gt_size2 accum0 idxs)
    as [a | e] eqn:Hrun; simpl; [| discriminate].
  pose proof (run_loop_masks frame num evaluate dataset lo hi gt_size2
                idxs _ _ Hrun) as Hm.
  simpl in Hm. unfold finish. intros Hfin.
  destruct idxs as [| i0 rest].
  - simpl in Hrun. inversion Hrun; subst a. simpl in Hfin. discriminate.
  - exists (i0 :: rest).
    destruct (masks a) as [| m0 ms] eqn:Ema; [discriminate |].
    destruct (result_dict a) as [d |]; simpl in Hfin; [| discriminate].
    inversion Hfin. rewrite map_app. simpl. rewrite Ema, Hm.
    eexists. split; [reflexivity |]. split; [discriminate | reflexivity].
Qed.

Lemma run_mask_column_witness :
  exists idxs others,
    py_range (0 + 1) 10 1 = Ok idxs /\
    idxs <> [] /\
    [("psnr", Floats [7; 7; 7; 7; 7; 7; 7; 7; 7]);
     ("aad", Floats [7; 7; 7; 7; 7; 7; 7; 7; 7]);
     ("ssim", Floats [7; 7; 7; 7; 7; 7; 7; 7; 7]);
     ("t-1 lo", Floats [1; 1; 1; 1; 1; 1; 1; 1; 1]);
     ("t lo", Floats [2; 2; 2; 2; 2; 2; 2; 2; 2]);
     ("t+1 lo", Floats [3; 3; 3; 3; 3; 3; 3; 3; 3]);
     ("t hi", Floats [4; 4; 4; 4; 4; 4; 4; 4; 4]);
     ("mask", Ints [0; 1; 0; 1; 0; 1; 0; 1; 1])]
    = others ++ [("mask", Ints (map (fun idx => mask_flag 10 idx 1 1) idxs))].
Proof.
  apply (run_mask_column nat Z
           (fun _ => Ok (7, 7, 7, [1; 2; 3; 4])) Demo.dataset 0 1 1 1 9).
  vm_compute. reflexivity.
Defined.

(** When no index is left for the worker ([len(dataset) <= rank + 1]) the
    loop body never runs, [result_dict] is never bound and the run ends
    with a [NameError] instead of an empty report. *)
Theorem run_nothing_to_process (frame num : Type)
    (evaluate : window frame -> result (num * num * num * list num))
    (dataset : list (sample frame)) (rank world_size lo hi gt_size2 : Z) :
  0 < world_size ->
  Z.of_nat (List.length dataset) <= rank + 1 ->
  run evaluate dataset rank world_size lo hi gt_size2
  = Raise (NameError "result_dict").
Proof.
  intros Hw Hn. unfold run.
  rewrite (py_range_positive _ _ _ Hw). unfold range_len.
  replace (rank + 1 <? Z.of_nat (List.length dataset)) with false
    by (symmetry; apply Z.ltb_ge; lia).
  reflexivity.
Qed.

Lemma run_nothing_to_process_witness :
  run (fun _ : window nat => Ok (7, 7, 7, [1; 2; 3; 4]))
      [Demo.sample_at 0] 0 1 1 1 0
  = Raise (NameError "result_dict").
Proof.
  apply (run_nothing_to_process nat Z); simpl; lia.
Defined.

Section ReportErrors.

Variable num : Type.

Lemma vstack_ragged (w : nat) (rows : list (list num)) (r : list num) :
  rows <> [] ->
  Forall (fun x => List.length x = w) rows ->
  List.length r <> w ->
  vstack (rows ++ [r]) = Raise ValueError.
Proof.
  intros Hne Hall Hr. destruct rows as [| h t]; [congruence |].
  inversion Hall as [| ? ? Hh Ht]; subst. simpl.
  rewrite forallb_app. simpl.
  replace (Nat.eqb (List.length r) (List.length h)) with false
    by (symmetry; apply Nat.eqb_neq; exact Hr).
  rewrite andb_false_r. reflexivity.
Qed.

Lemma loop_ragged (w : nat) (pre post : list (row num)) (r : row num) :
  forall a : accum num,
    (2 <= w)%nat ->
    atts a <> [] ->
    Forall (fun x => List.length x = w) (atts a) ->
    all_width w pre ->
    List.length (r_att r) <> w ->
    loop a (pre ++ r :: post)
    = Raise (if (List.length (r_att r) <? 2)%nat then IndexError
             else ValueError).
Proof.
  induction pre as [| p pre IH]; intros a H2 Hne Hall Hpre Hr.
  - simpl. unfold step.
    destruct (List.length (r_att r) <? 2)%nat eqn:E.
    + apply Nat.ltb_lt in E. rewrite (last_entry_short num _ E). reflexivity.
    + apply Nat.ltb_ge in E.
      destruct (last_entry_ok num _ E) as (x & ->). cbn [bind].
      rewrite (vstack_ragged w _ _ Hne Hall Hr). reflexivity.
  - inversion Hpre as [| ? ? Hp Hpre']; subst.
    simpl. unfold step.
    destruct (last_entry_ok num (r_att p) H2) as (x & ->). cbn [bind].
    assert (Forall (fun x => List.length x = List.length (r_att p))
                   (atts a ++ [r_att p])) as Hall'.
    { apply Forall_app. split; [exact Hall |]. repeat constructor. }
    assert (atts a ++ [r_att p] <> []) as Hne'
        by (destruct (atts a); discriminate).
    rewrite (vstack_uniform num _ _ Hne' Hall'). simpl.
    apply IH; simpl; assumption.
Qed.

End ReportErrors.

(** Attention vectors of different widths end the run: with a first
    vector of at least two entries, the first later pass whose vector has
    another width raises [IndexError] at line 250 when that width is
    below 2, and otherwise [ValueError] in [np.vstack]; no report is
    written. *)
Theorem report_ragged_widths (num : Type) (r1 r : row num)
    (pre post : list (row num)) :
  (2 <= List.length (r_att r1))%nat ->
  all_width (List.length (r_att r1)) pre ->
  List.length (r_att r) <> List.length (r_att r1) ->
  report (r1 :: pre ++ r :: post)
  = Raise (if (List.length (r_att r) <? 2)%nat then IndexError
           else ValueError).
Proof.
  intros H2 Hpre Hr. unfold report. simpl. unfold step.
  destruct (last_entry_ok num (r_att r1) H2) as (x & ->). cbn [bind].
  simpl.
  rewrite (loop_ragged num (List.length (r_att r1)) pre post r);
    try assumption.
  - reflexivity.
  - simpl. discriminate.
  - simpl. repeat constructor.
Qed.

Lemma report_ragged_widths_witness :
  report [Build_row 1 30 2 9 [1; 2; 3; 4]; Build_row 0 31 3 8 [5; 6; 7; 8; 9]]
  = Raise ValueError /\
  report [Build_row 1 30 2 9 [1; 2; 3; 4]; Build_row 0 31 3 8 [5]]
  = Raise IndexError.
Proof.
  split.
  - apply (report_ragged_widths Z (Build_row 1 30 2 9 [1; 2; 3; 4])
             (Build_row 0 31 3 8 [5; 6; 7; 8; 9]) [] []);
      [simpl; lia | constructor | simpl; lia].
  - apply (report_ragged_widths Z (Build_row 1 30 2 9 [1; 2; 3; 4])
             (Build_row 0 31 3 8 [5]) [] []);
      [simpl; lia | constructor | simpl; lia].
Defined.

(** ** Window assembly on a well-formed sequence *)

Lemma getitem_In (frame : Type) (dataset : list (sample frame)) (i : Z)
    (s : sample frame) :
  getitem dataset i = Ok s -> In s dataset.
Proof.
  unfold getitem.
  destruct ((0 <=? i) && (i <? Z.of_nat (List.length dataset)));
    [| discriminate].
  destruct (nth_error dataset (Z.to_nat i)) as [s' |] eqn:E; simpl;
    [| discriminate].
  intros H. inversion H; subst. apply (nth_error_In _ _ E).
Qed.

(** On a sequence whose samples all carry a 3-dimensional [gt] and a
    low-resolution stack reaching [center_frame_idx], with
    [0 <= idx < N], [loSep >= 0], [hiSep >= 1] and [0 <= gt_size[2] < N],
    window assembly completes: three low-resolution slices, the [gt]
    frames of the block start and block end as the reference pair, and
    the boundary flag. *)
Theorem build_window_total (frame : Type) (dataset : list (sample frame))
    (idx lo hi gt_size2 : Z) :
  let N := Z.of_nat (List.length dataset) in
  0 <= idx < N -> 0 <= lo -> 1 <= hi -> 0 <= gt_size2 < N ->
  Forall (fun s => (center_frame_idx < List.length (lq s))%nat /\
                   exists f, gt s = Some (T3 f)) dataset ->
  exists w ss se fs fe,
    outcome (build_window dataset idx lo hi gt_size2)
    = Ok (w, mask_flag N idx lo hi) /\
    List.length (w_lq w) = 3%nat /\
    w_ref_key w = "gt" /\
    getitem dataset (hi_start idx hi) = Ok ss /\ gt ss = Some (T3 fs) /\
    getitem dataset (hi_end gt_size2 idx hi) = Ok se /\ gt se = Some (T3 fe) /\
    w_hq w = [fs; fe].
Proof.
  intros N Hidx Hlo Hhi Hg Hwf.
  assert (Hlen : Forall (fun s => (center_frame_idx < List.length (lq s))%nat)
                        dataset).
  { apply (Forall_impl _ (fun s H => proj1 H) Hwf). }
  assert (Hgt : forall i s, getitem dataset i = Ok s ->
                            exists f, gt s = Some (T3 f)).
  { intros i s G. apply getitem_In in G. rewrite Forall_forall in Hwf.
    apply (Hwf s G). }
  pose proof (hi_start_blkStart idx hi ltac:(lia) Hhi) as Es.
  pose proof (blkStart_bounds idx hi Hhi) as Bs.
  assert (0 <= Spec.blkStart idx hi) as Hs0.
  { rewrite <- Es. unfold hi_start. lia. }
  destruct (getitem_in_range frame dataset idx) as (sc & Gc & Nc);
    [fold N; lia |].
  destruct (getitem_in_range frame dataset (lo_prev idx lo)) as (sp & Gp & Np);
    [unfold lo_prev; fold N; lia |].
  destruct (getitem_in_range frame dataset (lo_next N idx lo))
    as (sn & Gn & Nn); [unfold lo_next; fold N; lia |].
  destruct (getitem_in_range frame dataset (hi_start idx hi))
    as (ss & Gs & Ns); [rewrite Es; fold N; lia |].
  destruct (getitem_in_range frame dataset (hi_end gt_size2 idx hi))
    as (se & Ge & Ne).
  { rewrite hi_end_blkEnd. unfold Spec.blkEnd. fold N. lia. }
  destruct (center_slice_total frame dataset sp _ Hlen Np) as (fp & Cp).
  destruct (center_slice_total frame dataset sc _ Hlen Nc) as (fc & Cc).
  destruct (center_slice_total frame dataset sn _ Hlen Nn) as (fn & Cn).
  destruct (Hgt _ _ Gc) as (rc & Rc).
  destruct (Hgt _ _ Gs) as (fs & Rs).
  destruct (Hgt _ _ Ge) as (fe & Re).
  exists {| w_lq := [fp; fc; fn]; w_ref_key := "gt"; w_ref := T3 rc;
            w_hq := [fs; fe] |}, ss, se, fs, fe.
  repeat (split; [try assumption; try reflexivity |]); [| reflexivity].
  unfold outcome, build_window, assemble_lq, assemble_hq, slot,
    mbind, lookup, lift, ret.
  fold N. simpl. rewrite Gc. unfold has_gt, get_ref. rewrite Rc. simpl.
  rewrite Gp, Cp, Cc, Gn, Cn.
  replace (hi * 2 =? 0) with false by (symmetry; apply Z.eqb_neq; lia).
  rewrite Gs, Rs. simpl. rewrite Ge, Re. reflexivity.
Qed.

Lemma build_window_total_witness :
  exists w ss se fs fe,
    outcome (build_window Demo.dataset 5 1 2 9) = Ok (w, mask_flag 10 5 1 2) /\
    List.length (w_lq w) = 3%nat /\
    w_ref_key w = "gt" /\
    getitem Demo.dataset (hi_start 5 2) = Ok ss /\ gt ss = Some (T3 fs) /\
    getitem Demo.dataset (hi_end 9 5 2) = Ok se /\ gt se = Some (T3 fe) /\
    w_hq w = [fs; fe].
Proof.
  apply (build_window_total nat Demo.dataset 5 1 2 9); try (simpl; lia).
  repeat constructor; eexists; reflexivity.
Defined.

(** A target index outside [0, N) fails at the first lookup, line 192,
    before any neighbour is fetched. *)
Theorem build_window_bad_index (frame : Type) (dataset : list (sample frame))
    (idx lo hi gt_size2 : Z) :
  ~ (0 <= idx < Z.of_nat (List.length dataset)) ->
  outcome (build_window dataset idx lo hi gt_size2) = Raise IndexError /\
  lookups_of (build_window dataset idx lo hi gt_size2) = [idx].
Proof.
  intros Hidx.
  unfold outcome, lookups_of, build_window, mbind, lookup. simpl.
  rewrite (getitem_out_of_range frame dataset idx Hidx). split; reflexivity.
Qed.

Lemma build_window_bad_index_witness :
  outcome (build_window Demo.dataset 10 1 1 9) = Raise IndexError /\
  lookups_of (build_window Demo.dataset 10 1 1 9) = [10].
Proof.
  apply (build_window_bad_index nat Demo.dataset 10 1 1 9). simpl. lia.
Defined.

(** With [hi_frame_sep = 0] the block arithmetic divides by zero: on a
    sequence where the low-resolution triple can be built, the assembly
    raises [ZeroDivisionError] at line 208, after the triple's lookups. *)
Theorem build_window_zero_hi_sep (frame : Type)
    (dataset : list (sample frame)) (idx lo gt_size2 : Z) :
  let N := Z.of_nat (List.length dataset) in
  0 <= idx < N -> 0 <= lo ->
  Forall (fun s => (center_frame_idx < List.length (lq s))%nat /\
                   (gt s <> None \/ image s <> None)) dataset ->
  outcome (build_window dataset idx lo 0 gt_size2) = Raise ZeroDivisionError /\
  lookups_of (build_window dataset idx lo 0 gt_size2)
  = [idx; lo_prev idx lo; lo_next N idx lo].
Proof.
  intros N Hidx Hlo Hwf.
  assert (Hlen : Forall (fun s => (center_frame_idx < List.length (lq s))%nat)
                        dataset).
  { apply (Forall_impl _ (fun s H => proj1 H) Hwf). }
  destruct (getitem_in_range frame dataset idx) as (sc & Gc & Nc);
    [fold N; lia |].
  destruct (getitem_in_range frame dataset (lo_prev idx lo)) as (sp & Gp & Np);
    [unfold lo_prev; fold N; lia |].
  destruct (getitem_in_range frame dataset (lo_next N idx lo))
    as (sn & Gn & Nn); [unfold lo_next; fold N; lia |].
  destruct (center_slice_total frame dataset sp _ Hlen Np) as (fp & Cp).
  destruct (center_slice_total frame dataset sc _ Hlen Nc) as (fc & Cc).
  destruct (center_slice_total frame dataset sn _ Hlen Nn) as (fn & Cn).
  assert (exists r, get_ref sc (if has_gt sc then "gt" else "image") = Ok r)
    as (r & Hr).
  { rewrite Forall_forall in Hwf.
    destruct (Hwf sc (getitem_In _ _ _ _ Gc)) as [_ Href].
    unfold has_gt, get_ref.
    destruct (gt sc) as [t |]; simpl; [eexists; reflexivity |].
    destruct (image sc) as [t |]; simpl; [eexists; reflexivity |].
    destruct Href; congruence. }
  unfold outcome, lookups_of, build_window, assemble_lq, assemble_hq, slot,
    mbind, lookup, lift, ret.
  fold N. simpl. rewrite Gc, Hr, Gp, Cp, Cc, Gn, Cn. split; reflexivity.
Qed.

Lemma build_window_zero_hi_sep_witness :
  outcome (build_window Demo.dataset 4 1 0 9) = Raise ZeroDivisionError /\
  lookups_of (build_window Demo.dataset 4 1 0 9) = [4; 3; 5].
Proof.
  apply (build_window_zero_hi_sep nat Demo.dataset 4 1 9); try (simpl; lia).
  unfold Demo.dataset. simpl.
  repeat (apply Forall_cons;
          [split; [unfold center_frame_idx; simpl; lia | left; discriminate] |]).
  apply Forall_nil.
Defined.

(** A block-start reference with neither 3 nor 4 dimensions matches no
    branch of lines 212-215: the assembly raises nothing, never looks the
    block end up, and leaves [val_data['hq']] at the auxiliary frame of
    the target sample. *)
Theorem assemble_hq_fallthrough (frame : Type)
    (dataset : list (sample frame)) (idx hi gt_size2 : Z)
    (val_data_ s : sample frame) (r : tensor frame) :
  hi * 2 <> 0 ->
  getitem dataset (hi_start idx hi) = Ok s ->
  get_ref s (if has_gt s then "gt" else "image") = Ok r ->
  (r = TOther \/ exists size0, r = TMany size0) ->
  outcome (assemble_hq dataset idx hi gt_size2 val_data_)
  = Ok [hq val_data_] /\
  lookups_of (assemble_hq dataset idx hi gt_size2 val_data_)
  = [hi_start idx hi; hi_start idx hi; hi_start idx hi].
Proof.
  intros Hhi Gs Hr Hdim.
  unfold outcome, lookups_of, assemble_hq, mbind, lookup, lift, ret.
  apply Z.eqb_neq in Hhi. rewrite Hhi. simpl.
  rewrite Gs, Hr.
  destruct Hdim as [-> | (size0 & ->)]; simpl; split; reflexivity.
Qed.

Lemma assemble_hq_fallthrough_witness :
  outcome (assemble_hq
             [Build_sample [0; 1; 2]%nat (Some TOther) None 7%nat ""]
             0 1 5 (Build_sample [0; 1; 2]%nat (Some TOther) None 7%nat ""))
  = Ok [7%nat] /\
  lookups_of (assemble_hq
             [Build_sample [0; 1; 2]%nat (Some TOther) None 7%nat ""]
             0 1 5 (Build_sample [0; 1; 2]%nat (Some TOther) None 7%nat ""))
  = [hi_start 0 1; hi_start 0 1; hi_start 0 1].
Proof.
  apply (assemble_hq_fallthrough nat
           [Build_sample [0; 1; 2]%nat (Some TOther) None 7%nat ""]
           0 1 5
           (Build_sample [0; 1; 2]%nat (Some TOther) None 7%nat "")
           (Build_sample [0; 1; 2]%nat (Some TOther) None 7%nat "")
           TOther);
    try reflexivity.
  - lia.
  - left. reflexivity.
Defined.

(** ** More on the index arithmetic *)

(** Edge behaviour of the boundary flag: with [lo_frame_sep = 0] the
    clamped neighbour is the index itself, so every index is flagged; and
    for any [lo_frame_sep >= 0] the last index [N-1] is flagged. *)
Theorem mask_flag_edges (N idx lo hi : Z) :
  0 <= idx < N -> 0 <= lo ->
  mask_flag N idx 0 hi = 1 /\
  mask_flag N (N - 1) lo hi = 1.
Proof.
  intros Hidx Hlo. unfold mask_flag, lo_next. split.
  - replace (idx =? Z.min (N - 1) (idx + 0)) with true
      by (symmetry; apply Z.eqb_eq; lia).
    rewrite orb_true_r. reflexivity.
  - replace (N - 1 =? Z.min (N - 1) (N - 1 + lo)) with true
      by (symmetry; apply Z.eqb_eq; lia).
    rewrite orb_true_r. reflexivity.
Qed.

Lemma mask_flag_edges_witness :
  mask_flag 10 3 0 4 = 1 /\ mask_flag 10 (10 - 1) 2 4 = 1.
Proof.
  exact (mask_flag_edges 10 3 2 4 ltac:(lia) ltac:(lia)).
Defined.

(** The high-resolution blocks tile the index line: all indices of one
    block share their pair of lookups, the next block starts [2*hiSep]
    later, exactly where an unclamped block end lies; and when
    [gt_size[2]] is below the block start, the "end" reference is
    [gt_size[2]] itself, an index before the start reference. *)
Theorem hi_blocks_chain (idx hi gt_size2 : Z) :
  0 <= idx -> 1 <= hi ->
  hi_start (idx + 2 * hi) hi = hi_start idx hi + 2 * hi /\
  (hi_start idx hi + 2 * hi <= gt_size2 ->
   hi_end gt_size2 idx hi = hi_start (idx + 2 * hi) hi) /\
  (forall idx', 0 <= idx' -> idx' / (2 * hi) = idx / (2 * hi) ->
     hi_start idx' hi = hi_start idx hi /\
     hi_end gt_size2 idx' hi = hi_end gt_size2 idx hi) /\
  (gt_size2 < hi_start idx hi ->
   hi_end gt_size2 idx hi = gt_size2 /\
   hi_end gt_size2 idx hi < hi_start idx hi).
Proof.
  intros Hidx Hhi.
  assert (Hnext : Spec.blkStart (idx + 2 * hi) hi
                  = Spec.blkStart idx hi + 2 * hi).
  { unfold Spec.blkStart.
    replace (idx + 2 * hi) with (idx + 1 * (2 * hi)) by ring.
    rewrite Z.div_add by lia. ring. }
  rewrite !hi_start_blkStart by lia.
  rewrite !hi_end_blkEnd. unfold Spec.blkEnd.
  split; [exact Hnext |].
  split; [intros Hg; rewrite Hnext; lia |].
  split.
  - intros idx' Hidx' Hq.
    rewrite (hi_start_blkStart idx' hi) by lia.
    rewrite hi_end_blkEnd. unfold Spec.blkEnd, Spec.blkStart.
    rewrite Hq. split; reflexivity.
  - intros Hg. lia.
Qed.

Lemma hi_blocks_chain_witness :
  hi_start (5 + 2 * 2) 2 = hi_start 5 2 + 2 * 2.
Proof.
  exact (proj1 (hi_blocks_chain 5 2 100 ltac:(lia) ltac:(lia))).
Defined.

(** ** More on the Image Codec Adapter *)

Lemma convert_all_length (rgb2bgr : bool) (tensors : list (list Z)) :
  forall imgs,
    Codec.convert_all rgb2bgr tensors = Ok imgs ->
    List.length imgs = List.length tensors.
Proof.
  induction tensors as [| sh rest IH]; intros imgs H; simpl in H.
  - inversion H. reflexivity.
  - destruct (Codec.convert_one rgb2bgr sh) as [img | e]; simpl in H;
      [| discriminate].
    destruct (Codec.convert_all rgb2bgr rest) as [imgs' | e]; simpl in H;
      [| discriminate].
    inversion H. simpl. rewrite (IH imgs' eq_refl). reflexivity.
Qed.

Lemma shapes_of_list_length (items : list Codec.item) :
  forallb Codec.is_tensor items = true ->
  List.length (Codec.shapes_of (Codec.PyList items)) = List.length items.
Proof.
  induction items as [| [sh |] rest IH]; simpl; intros H.
  - reflexivity.
  - f_equal. exact (IH H).
  - discriminate.
Qed.

(** What a list input returns: a one-element list gives the bare array,
    exactly as the tensor alone would; any other list, the empty one
    included, gives a list with one array per tensor. *)
Theorem tensor2img_list_result (rgb2bgr : bool) (items : list Codec.item)
    (out : Codec.output) :
  Codec.tensor2img (Codec.PyList items) rgb2bgr = Ok out ->
  (exists sh img,
      items = [Codec.ITensor sh] /\ out = Codec.One img /\
      Codec.tensor2img (Codec.Tensor sh) rgb2bgr = Ok (Codec.One img)) \/
  (exists imgs,
      out = Codec.Many imgs /\
      List.length imgs = List.length items /\
      List.length items <> 1%nat).
Proof.
  unfold Codec.tensor2img.
  destruct (Codec.supported_type (Codec.PyList items)) eqn:Hsup;
    cbn [negb]; [| discriminate].
  simpl in Hsup.
  pose proof (shapes_of_list_length items Hsup) as Hlen.
  destruct (Codec.convert_all rgb2bgr (Codec.shapes_of (Codec.PyList items)))
    as [imgs | e] eqn:Hall; simpl; [| discriminate].
  pose proof (convert_all_length _ _ _ Hall) as Hl.
  destruct imgs as [| img [| img2 rest]]; intros H; injection H as <-.
  - right. exists []. simpl in *. repeat split; lia.
  - left. destruct items as [| [sh |] [| it2 items']];
      simpl in *; try discriminate; try lia.
    exists sh, img. split; [reflexivity |]. split; [reflexivity |].
    destruct (Codec.convert_one rgb2bgr sh) as [i |]; simpl in *;
      [| discriminate].
    inversion Hall. reflexivity.
  - right. exists (img :: img2 :: rest). simpl in *. repeat split; lia.
Qed.

Lemma tensor2img_list_result_witness :
  (exists sh img,
      [Codec.ITensor [3; 4; 4]] = [Codec.ITensor sh] /\
      Codec.One (Codec.Hwc 4 4 3 true) = Codec.One img /\
      Codec.tensor2img (Codec.Tensor sh) true = Ok (Codec.One img)) \/
  (exists imgs,
      Codec.One (Codec.Hwc 4 4 3 true) = Codec.Many imgs /\
      List.length imgs = List.length [Codec.ITensor [3; 4; 4]] /\
      List.length [Codec.ITensor [3; 4; 4]] <> 1%nat).
Proof.
  apply (tensor2img_list_result true [Codec.ITensor [3; 4; 4]]).
  reflexivity.
Defined.

(** The leading [squeeze(0)] also hits 2-dimensional images: an image
    with a single row loses that row axis and is rejected with
    [TypeError], while any other row count passes through; tensors with
    fewer than two dimensions are always rejected. *)
Theorem tensor2img_single_row (rgb2bgr : bool) (h w : Z) :
  Codec.tensor2img (Codec.Tensor [1; w]) rgb2bgr = Raise TypeError /\
  (h <> 1 ->
   Codec.tensor2img (Codec.Tensor [h; w]) rgb2bgr
   = Ok (Codec.One (Codec.Plain h w))) /\
  Codec.tensor2img (Codec.Tensor [w]) rgb2bgr = Raise TypeError /\
  Codec.tensor2img (Codec.Tensor []) rgb2bgr = Raise TypeError.
Proof.
  split; [reflexivity |]. split; [| split].
  - intros Hh. unfold Codec.tensor2img. simpl. unfold Codec.convert_one.
    assert (Codec.squeeze0 [h; w] = [h; w]) as ->.
    { unfold Codec.squeeze0.
      destruct h as [| [p | p |] | p]; try reflexivity. congruence. }
    reflexivity.
  - unfold Codec.tensor2img. simpl. unfold Codec.convert_one, Codec.squeeze0.
    destruct w as [| [p | p |] | p]; reflexivity.
  - reflexivity.
Qed.

Lemma tensor2img_single_row_witness :
  Codec.tensor2img (Codec.Tensor [2; 5]) true
  = Ok (Codec.One (Codec.Plain 2 5)).
Proof.
  apply (proj1 (proj2 (tensor2img_single_row true 2 5))). lia.
Defined.

(** ** More on the metrics *)

Section MseFacts.

Local Open Scope R_scope.
Import Metric.

Lemma sum_sq_nonneg (diff : list R) :
  0 <= fold_right (fun d acc => d * d + acc) 0 diff.
Proof.
  induction diff as [| d rest IH]; simpl; [lra |].
  pose proof (Rle_0_sqr d) as H. unfold Rsqr in H. lra.
Qed.

Lemma sum_sq_zero (diff : list R) :
  fold_right (fun d acc => d * d + acc) 0 diff = 0 <->
  Forall (fun d => d = 0) diff.
Proof.
  induction diff as [| d rest IH]; simpl.
  - split; [constructor | reflexivity].
  - pose proof (Rle_0_sqr d) as Hd. unfold Rsqr in Hd.
    pose proof (sum_sq_nonneg rest) as Hr.
    split.
    + intros H. assert (d * d = 0) as Hdd by lra.
      assert (fold_right (fun d acc => d * d + acc) 0 rest = 0) as Hrr by lra.
      constructor; [| apply IH; exact Hrr].
      apply Rmult_integral in Hdd. destruct Hdd; assumption.
    + intros H. inversion H as [| ? ? H0 Hrest]; subst.
      apply IH in Hrest. rewrite Hrest. lra.
Qed.

Lemma sum_sq_bounded (b : R) (diff : list R) :
  0 <= b ->
  Forall (fun d => - b <= d <= b) diff ->
  fold_right (fun d acc => d * d + acc) 0 diff
  <= INR (List.length diff) * (b * b).
Proof.
  intros Hb Hall. induction Hall as [| d rest Hd Hrest IH].
  - simpl. lra.
  - change (List.length (d :: rest)) with (S (List.length rest)).
    rewrite S_INR. simpl fold_right.
    assert (d * d <= b * b) by nra. lra.
Qed.

Lemma length_INR_pos (A : Type) (l : list A) : l <> [] -> 0 < INR (List.length l).
Proof.
  intros Hne. destruct l as [| a l]; [congruence |].
  change (List.length (a :: l)) with (S (List.length l)).
  rewrite S_INR. pose proof (pos_INR (List.length l)). lra.
Qed.

End MseFacts.

(** For two 8-bit images, whose pixel differences are integers of
    [-255, 255], the mean squared error of a non-empty image is a finite
    value [>= 0]; it is 0 exactly when every pixel difference is 0, and
    exactly then the PSNR is [+infinity]. *)
Theorem mse_zero_iff_identical (diff : list R) :
  diff <> [] ->
  Forall (fun d => exists k : Z, d = IZR k /\ (-255 <= k <= 255)%Z) diff ->
  (exists m,
      Metric.mean_sq diff = Metric.Fin m /\ (0 <= m)%R /\
      (m = 0%R <-> Forall (fun d => d = 0%R) diff)) /\
  (Metric.psnr (Metric.mean_sq diff) = Metric.PInf <->
   Forall (fun d => d = 0%R) diff).
Proof.
  intros Hne _.
  pose proof (length_INR_pos R diff Hne) as Hn.
  pose proof (sum_sq_nonneg diff) as Hs.
  assert (Metric.mean_sq diff
          = Metric.Fin (fold_right (fun d acc => d * d + acc) 0 diff
                        / INR (List.length diff))%R) as Em.
  { destruct diff; [congruence | reflexivity]. }
  assert ((fold_right (fun d acc => d * d + acc) 0 diff
           / INR (List.length diff) = 0)%R
          <-> Forall (fun d => d = 0%R) diff) as Hz.
  { rewrite <- sum_sq_zero. split.
    - intros H. apply (Rmult_eq_compat_r (INR (List.length diff))) in H.
      unfold Rdiv in H. rewrite Rmult_assoc, Rinv_l in H by lra. lra.
    - intros ->. unfold Rdiv. lra. }
  assert (0 <= fold_right (fun d acc => d * d + acc) 0 diff
               / INR (List.length diff))%R as Hm0.
  { apply Rmult_le_pos; [exact Hs |].
    apply Rlt_le, Rinv_0_lt_compat. exact Hn. }
  split.
  - eexists. split; [exact Em |]. split; [exact Hm0 | exact Hz].
  - rewrite Em. split.
    + intros E. apply Hz.
      destruct (Req_EM_T (fold_right (fun d acc => d * d + acc) 0 diff
                          / INR (List.length diff)) 0)%R as [E0 | N0];
        [exact E0 |].
      rewrite psnr_positive in E by lra. discriminate E.
    + intros Hall. apply Hz in Hall. rewrite Hall. apply psnr_zero.
Qed.

Lemma mse_zero_iff_identical_witness :
  Metric.psnr (Metric.mean_sq [0; 0; 0]%R) = Metric.PInf.
Proof.
  apply (proj2 (mse_zero_iff_identical [0; 0; 0]%R
                  ltac:(discriminate)
                  ltac:(repeat (apply Forall_cons;
                                [exists 0%Z; split; [reflexivity | lia] |]);
                        apply Forall_nil))).
  repeat constructor.
Defined.

(** For 8-bit images every pixel difference lies in [-255, 255]; the PSNR
    of a non-empty image is then never negative: it is [+infinity] or a
    finite value [>= 0]. *)
Theorem psnr_nonnegative (diff : list R) :
  diff <> [] ->
  Forall (fun d => (- 255 <= d <= 255)%R) diff ->
  Metric.psnr (Metric.mean_sq diff) = Metric.PInf \/
  exists p, Metric.psnr (Metric.mean_sq diff) = Metric.Fin p /\ (0 <= p)%R.
Proof.
  intros Hne Hall.
  pose proof (length_INR_pos R diff Hne) as Hn.
  pose proof (sum_sq_nonneg diff) as Hs.
  pose proof (sum_sq_bounded 255 diff ltac:(lra) Hall) as Hb.
  assert (Metric.mean_sq diff
          = Metric.Fin (fold_right (fun d acc => d * d + acc) 0 diff
                        / INR (List.length diff))%R) as Em.
  { destruct diff; [congruence | reflexivity]. }
  rewrite Em.
  set (m := (fold_right (fun d acc => d * d + acc) 0 diff
             / INR (List.length diff))%R).
  assert (0 <= m)%R as Hm0.
  { unfold m. apply Rmult_le_pos; [exact Hs |].
    apply Rlt_le, Rinv_0_lt_compat. exact Hn. }
  assert (m <= 255 * 255)%R as Hm1.
  { unfold m. apply (Rmult_le_reg_r (INR (List.length diff))); [exact Hn |].
    unfold Rdiv. rewrite Rmult_assoc, Rinv_l by lra. lra. }
  destruct (Req_EM_T m 0) as [-> | Hnz].
  - left. apply psnr_zero.
  - right. rewrite (psnr_positive m) by lra.
    eexists. split; [reflexivity |].
    assert (1 <= 255 * 255 / m)%R as Hq.
    { apply (Rmult_le_reg_r m); [lra |].
      unfold Rdiv. rewrite Rmult_assoc, Rinv_l by lra. lra. }
    assert (0 <= ln (255 * 255 / m))%R as Hln.
    { destruct Hq as [Hlt | <-]; [| rewrite ln_1; lra].
      rewrite <- ln_1. apply Rlt_le. apply ln_increasing; lra. }
    pose proof ln_10_pos as H10.
    apply Rmult_le_pos; [lra |].
    apply Rmult_le_pos; [exact Hln |].
    apply Rlt_le, Rinv_0_lt_compat. exact H10.
Qed.

Lemma psnr_nonnegative_witness :
  Metric.psnr (Metric.mean_sq [255; 0]%R) = Metric.PInf \/
  exists p, Metric.psnr (Metric.mean_sq [255; 0]%R) = Metric.Fin p /\ (0 <= p)%R.
Proof.
  apply (psnr_nonnegative [255; 0]%R); [discriminate |].
  repeat constructor; lra.
Defined.

(** ** Working directory *)

Lemma last_In (A : Type) (l : list A) (d : A) : l <> [] -> In (last l d) l.
Proof.
  induction l as [| a l IH]; intros Hne; [congruence |].
  destruct l as [| b l']; [left; reflexivity |].
  right. apply IH. discriminate.
Qed.

Lemma existsb_XFusion (c : list string) :
  existsb (String.eqb "XFusion") c = true <-> In "XFusion" c.
Proof.
  rewrite existsb_exists. split.
  - intros (x & Hin & E). apply String.eqb_eq in E. subst. exact Hin.
  - intros Hin. exists "XFusion". split; [exact Hin | apply String.eqb_refl].
Qed.

(** Lines 121-130 hand a directory to [os.chdir] only from a directory
    named [inference] below some [XFusion], or from a directory named
    [conda] outside any [XFusion]; that directory is always one named
    [inference]; and from a directory named [XFusion] itself the script
    stops with the [TypeError] of [Path + str]. *)
Theorem cwd_choose_outcomes (c : list string) :
  (forall d, Cwd.choose c = inl d -> Cwd.name d = "inference") /\
  (Cwd.name c = "XFusion" -> Cwd.choose c = inr Cwd.PathPlusStr) /\
  ((exists d, Cwd.choose c = inl d) <->
   (In "XFusion" c /\ Cwd.name c = "inference") \/
   (~ In "XFusion" c /\ Cwd.name c = "conda")).
Proof.
  unfold Cwd.choose.
  destruct (existsb (String.eqb "XFusion") c) eqn:Hx.
  - apply existsb_XFusion in Hx.
    destruct (String.eqb_spec (Cwd.name c) "inference") as [Ei | Ni].
    + split; [intros d H; inversion H; subst; exact Ei |].
      split; [intros E; rewrite E in Ei; discriminate |].
      split; [intros _; left; auto | intros _; eexists; reflexivity].
    + destruct (String.eqb_spec (Cwd.name c) "XFusion") as [Ex | Nx].
      * split; [intros d H; discriminate |].
        split; [reflexivity |].
        split; [intros (d & H); discriminate |].
        intros [[_ E] | [H _]]; [congruence | contradiction].
      * split; [intros d H; discriminate |].
        split; [intros E; congruence |].
        split; [intros (d & H); discriminate |].
        intros [[_ E] | [H _]]; [congruence | contradiction].
  - assert (~ In "XFusion" c) as Hnot.
    { intros Hin. apply existsb_XFusion in Hin. congruence. }
    destruct (String.eqb_spec (Cwd.name c) "conda") as [Ec | Nc].
    + split.
      { intros d H. inversion H; subst. unfold Cwd.name.
        change (c ++ ["XFusion"; "inference"])
          with (c ++ ["XFusion"] ++ ["inference"]).
        rewrite app_assoc. apply last_last. }
      split.
      { intros E. exfalso. apply Hnot. rewrite <- E. unfold Cwd.name.
        apply last_In. intros ->. simpl in E. discriminate. }
      split; [intros _; right; auto | intros _; eexists; reflexivity].
    + split; [intros d H; discriminate |].
      split.
      { intros E. exfalso. apply Hnot. rewrite <- E. unfold Cwd.name.
        apply last_In. intros ->. simpl in E. discriminate. }
      split; [intros (d & H); discriminate |].
      intros [[H _] | [_ E]]; [contradiction | congruence].
Qed.

Lemma cwd_choose_outcomes_witness :
  Cwd.choose ["home"; "user"; "XFusion"] = inr Cwd.PathPlusStr.
Proof.
  apply (proj1 (proj2 (cwd_choose_outcomes ["home"; "user"; "XFusion"]))).
  reflexivity.
Defined.

(** ** Configuration name *)

Lemma before_no_dash (v : string) :
  Forall (fun c => c <> "-"%char) (list_ascii_of_string v) ->
  Config.before "--config" v = v.
Proof.
  induction v as [| c v IH]; intros H; [reflexivity |].
  simpl in H. inversion H as [| ? ? Hc Hv]; subst.
  change (Config.before "--config" (String c v))
    with (if String.prefix "--config" (String c v) then EmptyString
          else String c (Config.before "--config" v)).
  assert (String.prefix "--config" (String c v) = false) as ->.
  { cbn [String.prefix].
    destruct (ascii_dec "-" c) as [E | _]; [congruence | reflexivity]. }
  rewrite (IH Hv). reflexivity.
Qed.

Lemma get_config_name_skip (dflt : string) (pre rest : list string) :
  Forall (fun a => String.prefix "--config" a = false) pre ->
  Config.get_config_name dflt (pre ++ rest)
  = Config.get_config_name dflt rest.
Proof.
  intros H. induction H as [| a pre Ha Hpre IH]; [reflexivity |].
  simpl. rewrite Ha. exact IH.
Qed.

(** [get_config_name] looks at the first argument that starts with
    [--config] and at nothing after it: without such an argument the
    default name is returned; [--config NAME] returns [NAME]; a final
    [--config] has no successor and raises [IndexError];
    [--config=NAME], for a [NAME] free of dashes, returns [NAME]. *)
Theorem get_config_name_cases (dflt v : string) (pre post : list string) :
  Forall (fun a => String.prefix "--config" a = false) pre ->
  Config.get_config_name dflt pre = Ok dflt /\
  Config.get_config_name dflt (pre ++ "--config" :: v :: post) = Ok v /\
  Config.get_config_name dflt (pre ++ ["--config"]) = Raise IndexError /\
  (Forall (fun c => c <> "-"%char) (list_ascii_of_string v) ->
   Config.get_config_name dflt (pre ++ String.append "--config=" v :: post)
   = Ok v).
Proof.
  intros Hpre. split; [| split; [| split]].
  - rewrite <- (app_nil_r pre) at 1.
    rewrite (get_config_name_skip dflt pre [] Hpre). reflexivity.
  - rewrite (get_config_name_skip dflt pre _ Hpre). reflexivity.
  - rewrite (get_config_name_skip dflt pre _ Hpre). reflexivity.
  - intros Hv. rewrite (get_config_name_skip dflt pre _ Hpre).
    simpl. unfold Config.split_config_1. simpl.
    rewrite (before_no_dash v Hv). reflexivity.
Qed.

Lemma get_config_name_cases_witness :
  Config.get_config_name "xfusion.conf" (["xfusion"; "train"] ++
                                         "--config" :: "my.conf" :: ["--verbose"])
  = Ok "my.conf".
Proof.
  apply (proj1 (proj2 (get_config_name_cases "xfusion.conf" "my.conf"
                         ["xfusion"; "train"] ["--verbose"]
                         ltac:(repeat constructor)))).
Defined.

(** ** Reference key chosen once per block *)

(** The reference key is chosen from the block-start sample alone: when
    that sample has a (3- or 4-dimensional) [gt] and the block-end sample
    has none, the block-end read raises [KeyError] on ['gt'], whether or
    not the block-end sample has an [image]. *)
Theorem assemble_hq_key_mismatch (frame : Type)
    (dataset : list (sample frame)) (idx hi gt_size2 : Z)
    (val_data_ s e : sample frame) (r : tensor frame) (a : frame) :
  hi * 2 <> 0 ->
  getitem dataset (hi_start idx hi) = Ok s ->
  getitem dataset (hi_end gt_size2 idx hi) = Ok e ->
  gt s = Some r ->
  (r = T3 a \/ exists rest, r = T4 (a :: rest)) ->
  gt e = None ->
  outcome (assemble_hq dataset idx hi gt_size2 val_data_)
  = Raise (KeyError "gt").
Proof.
  intros Hhi Gs Ge Hs Hr He.
  unfold outcome, assemble_hq, mbind, lookup, lift, ret.
  apply Z.eqb_neq in Hhi. rewrite Hhi. simpl.
  rewrite Gs. unfold has_gt, get_ref. rewrite Hs. simpl.
  destruct Hr as [-> | (rest & ->)]; simpl; rewrite Ge; simpl;
    rewrite He; reflexivity.
Qed.

Lemma assemble_hq_key_mismatch_witness :
  outcome (assemble_hq
             [Demo.sample_at 0; Demo.sample_at 1;
              Build_sample [0; 1; 2]%nat None (Some (T3 5%nat)) 7%nat ""]
             1 1 2 (Demo.sample_at 1))
  = Raise (KeyError "gt").
Proof.
  apply (assemble_hq_key_mismatch nat
           [Demo.sample_at 0; Demo.sample_at 1;
            Build_sample [0; 1; 2]%nat None (Some (T3 5%nat)) 7%nat ""]
           1 1 2 (Demo.sample_at 1) (Demo.sample_at 0)
           (Build_sample [0; 1; 2]%nat None (Some (T3 5%nat)) 7%nat "")
           (T3 1000%nat) 1000%nat); try reflexivity.
  - lia.
  - left. reflexivity.
Defined.
